(** * Verification of [pkg/boot/build/build_executables.go]

    The file embeds the "build executables" command of apiserver-boot:
    the target selection ([buildApiserver], [buildController]), the direct
    toolchain path ([GoBuild]) and the Bazel path ([BazelBuild]).

    The command is sequential glue around external processes, so the
    embedding is a trace semantics: every externally visible action of the
    Go code (a file removal, a log line, a spawned command with its
    arguments and environment) is an [Event], and a run of the command is
    the list of events it performs together with its outcome, [Done] or
    [Fatal] (the [klog.Fatal] calls, which log and exit the process). *)

From Stdlib Require Import String Ascii List Bool Arith Lia Permutation.
Import ListNotations.
Local Open Scope string_scope.
Local Open Scope list_scope.

(** ** Strings and the pieces of the Go standard library that are used *)

Module strings.

(** [strings.Join(elems, sep)]. *)
Definition Join (elems : list string) (sep : string) : string :=
  String.concat sep elems.

(** [len(s) > 0] on a Go string. *)
Definition nonempty (s : string) : bool := (0 <? String.length s)%nat.

End strings.

Module filepath.

(** The components of a path between its separators, empty ones included:
    ["a//b"] gives [["a"; ""; "b"]]. *)
Fixpoint split_sep (s : string) : list string :=
  match s with
  | EmptyString => [EmptyString]
  | String c r =>
      if Ascii.eqb c "/" then EmptyString :: split_sep r
      else match split_sep r with
           | [] => [String c EmptyString]
           | x :: xs => String c x :: xs
           end
  end.

(** One step of the lexical cleaning of [filepath.Clean]; [stack] holds the
    components kept so far, the last one first. *)
Definition clean_step (rooted : bool) (stack : list string) (comp : string)
  : list string :=
  if comp =? "" then stack
  else if comp =? "." then stack
  else if comp =? ".." then
    match stack with
    | top :: rest => if top =? ".." then comp :: stack else rest
    | [] => if rooted then [] else [comp]
    end
  else comp :: stack.

(** [filepath.Clean] on a system whose separator is a slash. *)
Definition Clean (path : string) : string :=
  if path =? "" then "."
  else
    let rooted := String.prefix "/" path in
    let comps := fold_left (clean_step rooted) (split_sep path) [] in
    let body := String.concat "/" (rev comps) in
    if rooted then "/" ++ body
    else if body =? "" then "." else body.

(** [filepath.Join]: leading empty elements are dropped, the rest is joined
    with the separator and cleaned; no element left gives the empty
    string. *)
Fixpoint Join (elem : list string) : string :=
  match elem with
  | [] => ""
  | e :: rest => if e =? "" then Join rest
                 else Clean (String.concat "/" elem)
  end.

End filepath.

(** ** The process environment *)

Module os.

(** Splits an entry [KEY=VALUE] at its first equals sign; an entry without
    one has no key. *)
Fixpoint split_entry (s : string) : option (string * string) :=
  match s with
  | EmptyString => None
  | String c r =>
      if Ascii.eqb c "=" then Some (EmptyString, r)
      else match split_entry r with
           | Some (k, v) => Some (String c k, v)
           | None => None
           end
  end.

(** The key of an entry; the whole entry when it has no equals sign. *)
Definition entry_key (s : string) : string :=
  match split_entry s with
  | Some (k, _) => k
  | None => s
  end.

Definition has_key (key : string) (entry : string) : bool :=
  match split_entry entry with
  | Some (k, _) => k =? key
  | None => false
  end.

(** The value a list of entries gives to [key] when the first mention of a
    key is the one that counts, as in the environment of the running
    process. *)
Definition lookup_first (env : list string) (key : string) : option string :=
  match find (has_key key) env with
  | Some e => option_map snd (split_entry e)
  | None => None
  end.

(** The value a list of entries gives to [key] when the last mention of a
    key is the one that counts, as in the [Env] of a spawned command
    ("If Env contains duplicate environment keys, only the last value in
    the slice for each duplicate key is used"). *)
Definition lookup_last (env : list string) (key : string) : option string :=
  lookup_first (rev env) key.

End os.

(** ** External commands *)

Module exec.

(** The error of [c.Run()]: the program could not be started, or it ran
    and exited with a non-zero status. *)
Inductive error : Type :=
| StartError (msg : string)
| ExitError (code : nat).

(** The fields of [exec.Cmd] the builder sets. [Env] is a slice that is
    [nil] until something is assigned to it; [None] stands for [nil]. *)
Record Cmd : Type := mkCmd {
  Args : list string;
  Env : option (list string)
}.

(** [exec.Command(name, arg...)]: the arguments start with the name, the
    environment is left [nil]. *)
Definition Command (name : string) (arg : list string) : Cmd :=
  {| Args := name :: arg; Env := None |}.

(** The assignment [c.Env = env]. *)
Definition set_Env (c : Cmd) (env : option (list string)) : Cmd :=
  {| Args := Args c; Env := env |}.

End exec.

Import exec.

(** Go's [append(s, x)] on a slice that may be [nil]: the result is never
    [nil]. *)
Definition append (s : option (list string)) (x : string)
  : option (list string) :=
  Some (match s with Some l => l | None => [] end ++ [x]).

(** ** Configuration and the outside world *)

(** The package-level variables the flags of the command are bound to. *)
Record Globals : Type := mkGlobals {
  goos : string;
  goarch : string;
  outputdir : string;
  Bazel : bool;
  Gazelle : bool;
  BuildTargets : list string
}.

Definition apiserverTarget : string := "apiserver".
Definition controllerTarget : string := "controller".

(** What the command reads from outside: the environment of the process
    ([os.Environ()]), whether [os.Stat] of a path succeeds, and what running
    a command returns ([None] for a [nil] error). *)
Record World : Type := mkWorld {
  Environ : list string;
  Stat : string -> bool;
  Run : Cmd -> option error
}.

(** [os.Getenv(key)]: the value of the variable, empty when it is not set. *)
Definition Getenv (w : World) (key : string) : string :=
  match os.lookup_first (Environ w) key with
  | Some v => v
  | None => ""
  end.

(** The environment the child process of [c] gets: "If Env is nil, the new
    process uses the current process's environment." *)
Definition child_env (w : World) (c : Cmd) : list string :=
  match Env c with
  | Some env => env
  | None => Environ w
  end.

(** ** Runs of the command *)

Inductive Event : Type :=
| EInitApis
| ERemoveAll (path : string)
| EInfof (format : string) (args : list string)
| ERun (c : Cmd).

Inductive Outcome (A : Type) : Type :=
| Done (a : A)
| Fatal (e : error).

Arguments Done {A} a.
Arguments Fatal {A} e.

(** A computation performs events and then either goes on with a value or
    has ended the process. *)
Definition Proc (A : Type) : Type := (list Event * Outcome A)%type.

Definition ret {A : Type} (a : A) : Proc A := ([], Done a).

Definition bind {A B : Type} (m : Proc A) (f : A -> Proc B) : Proc B :=
  match m with
  | (t, Done a) => let (t', r) := f a in (t ++ t', r)
  | (t, Fatal e) => (t, Fatal e)
  end.

Declare Scope proc_scope.
Delimit Scope proc_scope with proc.
Notation "x <- m ;; k" := (bind m (fun x => k))
  (at level 61, m at next level, right associativity) : proc_scope.
Notation "m ;; k" := (bind m (fun _ => k))
  (at level 61, right associativity) : proc_scope.
Local Open Scope proc_scope.

Definition emit (ev : Event) : Proc unit := ([ev], Done tt).

Definition trace {A : Type} (m : Proc A) : list Event := fst m.
Definition outcome {A : Type} (m : Proc A) : Outcome A := snd m.

(** [initApis()] is defined elsewhere in the package; here it is the event
    of its call. *)
Definition initApis : Proc unit := emit EInitApis.

(** [os.RemoveAll(path)]; the error it returns is dropped by every caller
    in this file. *)
Definition RemoveAll (path : string) : Proc unit := emit (ERemoveAll path).

(** [klog.Infof(format, args...)]. *)
Definition Infof (format : string) (args : list string) : Proc unit :=
  emit (EInfof format args).

(** [c.Run()]. *)
Definition run_cmd (w : World) (c : Cmd) : Proc (option error) :=
  ([ERun c], Done (Run w c)).

(** [if err != nil { klog.Fatal(err) }]. *)
Definition check (err : option error) : Proc unit :=
  match err with
  | Some e => ([], Fatal e)
  | None => ret tt
  end.

(** ** Target selection *)

Fixpoint range_apiserver (ts : list string) : bool :=
  match ts with
  | [] => false
  | t :: rest => if t =? apiserverTarget then true else range_apiserver rest
  end.

Fixpoint range_controller (ts : list string) : bool :=
  match ts with
  | [] => false
  | t :: rest => if t =? controllerTarget then true else range_controller rest
  end.

Definition buildApiserver (g : Globals) : bool :=
  range_apiserver (BuildTargets g).

Definition buildController (g : Globals) : bool :=
  range_controller (BuildTargets g).

(** ** The Bazel path *)

Definition BazelBuild (g : Globals) (w : World) : Proc unit :=
  initApis ;;
  (if Gazelle g then
     (if Stat w "go.mod" then
        let c := Command "bazel"
                   ["run"; "//:gazelle"; "--"; "update-repos";
                    "--from_file=go.mod";
                    "--to_macro=repos.bzl%go_repositories";
                    "--build_file_generation=on";
                    "--build_file_proto_mode=disable";
                    "--prune"] in
        Infof "%s" [strings.Join (Args c) " "] ;;
        err <- run_cmd w c ;;
        check err
      else ret tt) ;;
     let c := Command "bazel" ["run"; "//:gazelle"] in
     Infof "%s" [strings.Join (Args c) " "] ;;
     err <- run_cmd w c ;;
     check err
   else ret tt) ;;
  let targetDirs := [] in
  let targetDirs :=
    if buildApiserver g
    then targetDirs ++ [filepath.Join ["cmd"; "apiserver"]]
    else targetDirs in
  let targetDirs :=
    if buildController g
    then targetDirs ++ [filepath.Join ["cmd"; "manager"]]
    else targetDirs in
  let c := Command "bazel" (["build"] ++ targetDirs) in
  Infof "%s" [strings.Join (Args c) " "] ;;
  err <- run_cmd w c ;;
  check err ;;
  RemoveAll (filepath.Join ["bin"; "apiserver"]) ;;
  RemoveAll (filepath.Join ["bin"; "controller-manager"]) ;;
  (if buildApiserver g then
     let c := Command "cp"
                [filepath.Join ["bazel-bin"; "cmd"; "apiserver"; "apiserver_";
                                "apiserver"];
                 filepath.Join ["bin"; "apiserver"]] in
     Infof "%s" [strings.Join (Args c) " "] ;;
     err <- run_cmd w c ;;
     check err
   else ret tt) ;;
  (if buildController g then
     let c := Command "cp"
                [filepath.Join ["bazel-bin"; "cmd"; "manager"; "manager_";
                                "manager"];
                 filepath.Join ["bin"; "manager"]] in
     Infof "%s" [strings.Join (Args c) " "] ;;
     err <- run_cmd w c ;;
     check err
   else ret tt).

(** ** The direct toolchain path *)

(** The command of the controller manager, as the second block of [GoBuild]
    builds it before it logs and runs it. [fmt.Sprintf("K=%s", v)] is the
    concatenation of ["K="] and [v]. *)
Definition controller_cmd (g : Globals) (w : World) : Cmd :=
  let gocache := Getenv w "GOCACHE" in
  let localAppData := Getenv w "%LocalAppData%" in
  let path := filepath.Join ["cmd"; "manager"; "main.go"] in
  let c := Command "go"
             ["build"; "-o";
              filepath.Join [outputdir g; "controller-manager"]; path] in
  let c := if strings.nonempty localAppData
           then set_Env c (append (Env c) ("GOCACHE=" ++ gocache)%string)
           else c in
  let c := if strings.nonempty localAppData
           then set_Env c (append (Env c)
                             ("LocalAppData=" ++ localAppData)%string)
           else c in
  let c := if (String.length (Getenv w "CGO_ENABLED") =? 0)%nat
           then set_Env c (append (Some (Environ w)) "CGO_ENABLED=0")
           else c in
  let c := if strings.nonempty (goos g)
           then set_Env c (append (Env c) ("GOOS=" ++ goos g)%string)
           else c in
  let c := if strings.nonempty (goarch g)
           then set_Env c (append (Env c) ("GOARCH=" ++ goarch g)%string)
           else c in
  c.

Definition GoBuild (g : Globals) (w : World) : Proc unit :=
  initApis ;;
  RemoveAll (filepath.Join ["bin"; "apiserver"]) ;;
  RemoveAll (filepath.Join ["bin"; "controller-manager"]) ;;
  (if buildApiserver g then
     let path := filepath.Join ["cmd"; "apiserver"; "main.go"] in
     let c := Command "go"
                ["build"; "-o"; filepath.Join [outputdir g; "apiserver"];
                 path] in
     let c := set_Env c (append (Some (Environ w)) "CGO_ENABLED=0") in
     Infof "CGO_ENABLED=0" [] ;;
     c <- (if strings.nonempty (goos g) then
             let c := set_Env c
                        (append (Env c) ("GOOS=" ++ goos g)%string) in
             Infof ("GOOS=" ++ goos g)%string [] ;;
             ret c
           else ret c) ;;
     c <- (if strings.nonempty (goarch g) then
             let c := set_Env c
                        (append (Env c) ("GOARCH=" ++ goarch g)%string) in
             Infof ("GOARCH=" ++ goarch g)%string [] ;;
             ret c
           else ret c) ;;
     Infof "%s" [strings.Join (Args c) " "] ;;
     err <- run_cmd w c ;;
     check err
   else ret tt) ;;
  (if buildController g then
     let c := controller_cmd g w in
     Infof (strings.Join (Args c) " ") [] ;;
     err <- run_cmd w c ;;
     check err
   else ret tt).

(** [RunBuildExecutables] after the flags are parsed. *)
Definition RunBuildExecutables (g : Globals) (w : World) : Proc unit :=
  if Bazel g then BazelBuild g w else GoBuild g w.

(** ** Reading a run *)

(** The commands a run spawned, in order. *)
Fixpoint spawned (t : list Event) : list Cmd :=
  match t with
  | [] => []
  | ERun c :: rest => c :: spawned rest
  | _ :: rest => spawned rest
  end.

(** The paths a run removed, in order. *)
Fixpoint removed (t : list Event) : list string :=
  match t with
  | [] => []
  | ERemoveAll p :: rest => p :: removed rest
  | _ :: rest => removed rest
  end.

(** ** Closed forms of the direct toolchain path

    What the first block of [GoBuild] computes step by step, between its log
    lines, written as one expression; [GoBuild_eq] below proves that these
    are the command and the events of the run. *)

(** The entries appended for the [--goos] and [--goarch] flags. *)
Definition cross_entries (g : Globals) : list string :=
  (if strings.nonempty (goos g) then [("GOOS=" ++ goos g)%string] else []) ++
  (if strings.nonempty (goarch g) then [("GOARCH=" ++ goarch g)%string]
   else []).

(** The command of the apiserver as it is when it runs. *)
Definition apiserver_cmd (g : Globals) (w : World) : Cmd :=
  {| Args := ["go"; "build"; "-o"; filepath.Join [outputdir g; "apiserver"];
              filepath.Join ["cmd"; "apiserver"; "main.go"]];
     Env := Some (Environ w ++ "CGO_ENABLED=0" :: cross_entries g) |}.

(** The log lines of the first block, up to the run of its command. *)
Definition apiserver_log (g : Globals) (w : World) : list Event :=
  EInfof "CGO_ENABLED=0" [] ::
  (if strings.nonempty (goos g)
   then [EInfof ("GOOS=" ++ goos g)%string []] else []) ++
  (if strings.nonempty (goarch g)
   then [EInfof ("GOARCH=" ++ goarch g)%string []] else []) ++
  [EInfof "%s" [strings.Join (Args (apiserver_cmd g w)) " "]].

(** The second block of [GoBuild]: events and outcome. *)
Definition controller_part (g : Globals) (w : World) : Proc unit :=
  if buildController g then
    ([EInfof (strings.Join (Args (controller_cmd g w)) " ") [];
      ERun (controller_cmd g w)],
     match Run w (controller_cmd g w) with
     | Some e => Fatal e
     | None => Done tt
     end)
  else ([], Done tt).

(** The commands of the direct path: the one of the first block and the one
    of the second. *)
Definition toolchain_cmd (g : Globals) (w : World) (c : Cmd) : Prop :=
  c = apiserver_cmd g w \/ c = controller_cmd g w.

(** The three events every run of [GoBuild] starts with. *)
Definition go_prelude : list Event :=
  [EInitApis; ERemoveAll "bin/apiserver"; ERemoveAll "bin/controller-manager"].

(** ** Closed forms of the Bazel path

    The commands [BazelBuild] builds, in the order in which it runs them;
    [BazelBuild_runs] below proves that a run spawns the commands of
    [bazel_plan] one after the other and stops at the first that fails. *)

Definition update_repos_cmd : Cmd :=
  {| Args := ["bazel"; "run"; "//:gazelle"; "--"; "update-repos";
              "--from_file=go.mod"; "--to_macro=repos.bzl%go_repositories";
              "--build_file_generation=on"; "--build_file_proto_mode=disable";
              "--prune"];
     Env := None |}.

Definition gazelle_cmd : Cmd :=
  {| Args := ["bazel"; "run"; "//:gazelle"]; Env := None |}.

Definition bazel_build_cmd (g : Globals) : Cmd :=
  {| Args := ["bazel"; "build"] ++
             (if buildApiserver g then ["cmd/apiserver"] else []) ++
             (if buildController g then ["cmd/manager"] else []);
     Env := None |}.

Definition cp_apiserver_cmd : Cmd :=
  {| Args := ["cp"; "bazel-bin/cmd/apiserver/apiserver_/apiserver";
              "bin/apiserver"];
     Env := None |}.

Definition cp_manager_cmd : Cmd :=
  {| Args := ["cp"; "bazel-bin/cmd/manager/manager_/manager"; "bin/manager"];
     Env := None |}.

(** The commands before the removal of the stale binaries. *)
Definition bazel_plan_build (g : Globals) (w : World) : list Cmd :=
  (if Gazelle g
   then (if Stat w "go.mod" then [update_repos_cmd] else []) ++ [gazelle_cmd]
   else []) ++ [bazel_build_cmd g].

(** The commands after it. *)
Definition bazel_plan_copy (g : Globals) : list Cmd :=
  (if buildApiserver g then [cp_apiserver_cmd] else []) ++
  (if buildController g then [cp_manager_cmd] else []).

Definition bazel_plan (g : Globals) (w : World) : list Cmd :=
  bazel_plan_build g w ++ bazel_plan_copy g.

(** Runs the commands of a list in order, up to and including the first that
    returns an error. *)
Fixpoint run_all (w : World) (cs : list Cmd) : list Cmd * Outcome unit :=
  match cs with
  | [] => ([], Done tt)
  | c :: rest =>
      match Run w c with
      | Some e => ([c], Fatal e)
      | None => let (l, o) := run_all w rest in (c :: l, o)
      end
  end.

(** ** Sample configurations and worlds

    Concrete inputs on which the definitions above are evaluated. *)

(** The flags as [AddBuildExecutables] declares their defaults. *)
Definition default_globals : Globals :=
  {| goos := ""; goarch := ""; outputdir := "bin";
     Bazel := false; Gazelle := false;
     BuildTargets := [apiserverTarget; controllerTarget] |}.

(** [--goos linux --goarch arm64 --output linux], both targets. *)
Definition cross_globals : Globals :=
  {| goos := "linux"; goarch := "arm64"; outputdir := "linux";
     Bazel := false; Gazelle := false;
     BuildTargets := [apiserverTarget; controllerTarget] |}.

(** [--bazel --gazelle], both targets. *)
Definition bazel_globals : Globals :=
  {| goos := ""; goarch := ""; outputdir := "bin";
     Bazel := true; Gazelle := true;
     BuildTargets := [apiserverTarget; controllerTarget] |}.

(** A world in which every command succeeds and [go.mod] exists. *)
Definition world_ok : World :=
  {| Environ := ["PATH=/usr/bin"; "HOME=/root"];
     Stat := fun p => p =? "go.mod";
     Run := fun _ => None |}.

(** A world in which every command exits with status 1 and there is no
    [go.mod]. *)
Definition world_fail : World :=
  {| Environ := ["PATH=/usr/bin"; "HOME=/root"];
     Stat := fun _ => false;
     Run := fun _ => Some (ExitError 1) |}.

(** A world whose environment sets [CGO_ENABLED=1]. *)
Definition world_cgo : World :=
  {| Environ := ["PATH=/usr/bin"; "CGO_ENABLED=1"];
     Stat := fun _ => false;
     Run := fun _ => None |}.

(** A world whose environment sets [CGO_ENABLED=1], a build cache and a
    variable whose name is [%LocalAppData%], percent signs included. *)
Definition world_lad : World :=
  {| Environ := ["PATH=/usr/bin"; "CGO_ENABLED=1"; "GOCACHE=/cache";
                 "%LocalAppData%=/data"];
     Stat := fun _ => false;
     Run := fun _ => None |}.

(** ** The flags and their defaults *)

(** The package-level variables as their declarations initialise them. *)
Definition initial_globals : Globals :=
  {| goos := "linux"; goarch := "amd64"; outputdir := "bin";
     Bazel := false; Gazelle := false; BuildTargets := [] |}.

(** [Flags().StringVar(&v, name, value, usage)] and its siblings store the
    default [value] in the variable when the flag is declared. *)
Definition StringVar_goos (value : string) (g : Globals) : Globals :=
  {| goos := value; goarch := goarch g; outputdir := outputdir g;
     Bazel := Bazel g; Gazelle := Gazelle g; BuildTargets := BuildTargets g |}.

Definition StringVar_goarch (value : string) (g : Globals) : Globals :=
  {| goos := goos g; goarch := value; outputdir := outputdir g;
     Bazel := Bazel g; Gazelle := Gazelle g; BuildTargets := BuildTargets g |}.

Definition StringVar_outputdir (value : string) (g : Globals) : Globals :=
  {| goos := goos g; goarch := goarch g; outputdir := value;
     Bazel := Bazel g; Gazelle := Gazelle g; BuildTargets := BuildTargets g |}.

Definition BoolVar_Bazel (value : bool) (g : Globals) : Globals :=
  {| goos := goos g; goarch := goarch g; outputdir := outputdir g;
     Bazel := value; Gazelle := Gazelle g; BuildTargets := BuildTargets g |}.

Definition BoolVar_Gazelle (value : bool) (g : Globals) : Globals :=
  {| goos := goos g; goarch := goarch g; outputdir := outputdir g;
     Bazel := Bazel g; Gazelle := value; BuildTargets := BuildTargets g |}.

Definition StringArrayVar_BuildTargets (value : list string) (g : Globals)
  : Globals :=
  {| goos := goos g; goarch := goarch g; outputdir := outputdir g;
     Bazel := Bazel g; Gazelle := Gazelle g; BuildTargets := value |}.

(** [AddBuildExecutables], on the variables of this file ([vendorDir] is
    declared and used elsewhere in the package). *)
Definition AddBuildExecutables (g : Globals) : Globals :=
  let g := StringVar_goos "" g in
  let g := StringVar_goarch "" g in
  let g := StringVar_outputdir "bin" g in
  let g := BoolVar_Bazel false g in
  let g := BoolVar_Gazelle false g in
  let g := StringArrayVar_BuildTargets [apiserverTarget; controllerTarget] g in
  g.

(** ** Reading a run, continued *)

(** The commands of the direct path that the selection asks for, in the
    order of the two blocks. *)
Definition go_plan (g : Globals) (w : World) : list Cmd :=
  (if buildApiserver g then [apiserver_cmd g w] else []) ++
  (if buildController g then [controller_cmd g w] else []).

(** The command line of a command as the builder logs it. *)
Definition command_line (c : Cmd) : string := strings.Join (Args c) " ".

(** Every command of a run is announced by the event just before it: the
    command line logged through the format [%s], or logged as the format
    itself. [prev] is the event before the first of [t]. *)
Fixpoint runs_logged (prev : option Event) (t : list Event) : Prop :=
  match t with
  | [] => True
  | ERun c :: rest =>
      (prev = Some (EInfof "%s" [command_line c]) \/
       prev = Some (EInfof (command_line c) [])) /\
      runs_logged (Some (ERun c)) rest
  | ev :: rest => runs_logged (Some ev) rest
  end.

(** The number of calls of [initApis] in a run. *)
Fixpoint count_initApis (t : list Event) : nat :=
  match t with
  | [] => 0
  | EInitApis :: rest => S (count_initApis rest)
  | _ :: rest => count_initApis rest
  end.

(** The events of a run before its first removal, and the events from its
    first removal on. *)
Fixpoint until_removal (t : list Event) : list Event :=
  match t with
  | [] => []
  | ERemoveAll _ :: _ => []
  | ev :: rest => ev :: until_removal rest
  end.

Fixpoint from_removal (t : list Event) : list Event :=
  match t with
  | [] => []
  | ERemoveAll p :: rest => ERemoveAll p :: rest
  | _ :: rest => from_removal rest
  end.

(** A world in which the build of the controller manager exits with status
    2 and every other command succeeds. *)
Definition world_controller_fails : World :=
  {| Environ := ["PATH=/usr/bin"; "HOME=/root"];
     Stat := fun _ => false;
     Run := fun c => if last (Args c) "" =? "cmd/manager/main.go"
                     then Some (ExitError 2) else None |}.

(** ** Recognising the builds in a run

    A command of a run is the build of the apiserver, or of the controller
    manager, by its arguments: the toolchain's build action, the output path
    under the configured directory, and the source entry point. *)

Definition is_apiserver_build (g : Globals) (c : Cmd) : Prop :=
  Args c = ["go"; "build"; "-o"; filepath.Join [outputdir g; "apiserver"];
            "cmd/apiserver/main.go"].

Definition is_controller_build (g : Globals) (c : Cmd) : Prop :=
  Args c = ["go"; "build"; "-o";
            filepath.Join [outputdir g; "controller-manager"];
            "cmd/manager/main.go"].

(** * Properties *)

(** ** Strings *)

Lemma nonempty_true (s : string) : strings.nonempty s = true <-> s <> "".
Proof.
  unfold strings.nonempty. destruct s as [|c r]; simpl.
  - split; [discriminate | intros H; now elim H].
  - split; [discriminate | reflexivity].
Qed.

Lemma nonempty_false (s : string) : strings.nonempty s = false <-> s = "".
Proof.
  unfold strings.nonempty. destruct s as [|c r]; simpl.
  - split; reflexivity.
  - split; discriminate.
Qed.

Lemma length_zero_nonempty (s : string) :
  (String.length s =? 0)%nat = negb (strings.nonempty s).
Proof. destruct s; reflexivity. Qed.

(** ** Runs on the sample inputs *)

Example Join_cases :
  filepath.Join ["bin"; "apiserver"] = "bin/apiserver" /\
  filepath.Join ["linux/"; "apiserver"] = "linux/apiserver" /\
  filepath.Join [""; "apiserver"] = "apiserver" /\
  filepath.Join ["out/../dist/."; "controller-manager"]
  = "dist/controller-manager" /\
  filepath.Join ["cmd"; "manager"; "main.go"] = "cmd/manager/main.go".
Proof. repeat split. Qed.

Example Getenv_cases :
  Getenv world_cgo "CGO_ENABLED" = "1" /\
  Getenv world_ok "CGO_ENABLED" = "" /\
  Getenv world_lad "%LocalAppData%" = "/data" /\
  Getenv world_lad "LocalAppData" = "".
Proof. repeat split. Qed.

(** The default flags in a world where everything succeeds: both binaries
    are built into [bin], each with the ambient environment and
    [CGO_ENABLED=0]. *)
Example GoBuild_default_ok :
  GoBuild default_globals world_ok =
  ([EInitApis;
    ERemoveAll "bin/apiserver";
    ERemoveAll "bin/controller-manager";
    EInfof "CGO_ENABLED=0" [];
    EInfof "%s" ["go build -o bin/apiserver cmd/apiserver/main.go"];
    ERun {| Args := ["go"; "build"; "-o"; "bin/apiserver";
                     "cmd/apiserver/main.go"];
            Env := Some ["PATH=/usr/bin"; "HOME=/root"; "CGO_ENABLED=0"] |};
    EInfof "go build -o bin/controller-manager cmd/manager/main.go" [];
    ERun {| Args := ["go"; "build"; "-o"; "bin/controller-manager";
                     "cmd/manager/main.go"];
            Env := Some ["PATH=/usr/bin"; "HOME=/root"; "CGO_ENABLED=0"] |}],
   Done tt).
Proof. reflexivity. Qed.

(** [--bazel --gazelle] without [go.mod], every command failing: the run
    ends at [bazel run //:gazelle]. *)
Example BazelBuild_gazelle_fails :
  BazelBuild bazel_globals world_fail =
  ([EInitApis;
    EInfof "%s" ["bazel run //:gazelle"];
    ERun {| Args := ["bazel"; "run"; "//:gazelle"]; Env := None |}],
   Fatal (ExitError 1)).
Proof. reflexivity. Qed.

(** [--bazel --gazelle] with [go.mod], every command succeeding. *)
Example BazelBuild_all_ok :
  spawned (trace (BazelBuild bazel_globals world_ok)) =
  [update_repos_cmd; gazelle_cmd;
   {| Args := ["bazel"; "build"; "cmd/apiserver"; "cmd/manager"];
      Env := None |};
   cp_apiserver_cmd; cp_manager_cmd] /\
  removed (trace (BazelBuild bazel_globals world_ok))
  = ["bin/apiserver"; "bin/controller-manager"] /\
  outcome (BazelBuild bazel_globals world_ok) = Done tt.
Proof. repeat split. Qed.

(** ** Target selection *)

Section Selection.

Lemma range_apiserver_In (ts : list string) :
  range_apiserver ts = true <-> In apiserverTarget ts.
Proof.
  induction ts as [|t rest IH]; simpl.
  - split; [discriminate | tauto].
  - destruct (String.eqb_spec t apiserverTarget) as [E|N].
    + subst t. split; auto.
    + rewrite IH. split; [auto | intros [E|H]; [congruence | exact H]].
Qed.

Lemma range_controller_In (ts : list string) :
  range_controller ts = true <-> In controllerTarget ts.
Proof.
  induction ts as [|t rest IH]; simpl.
  - split; [discriminate | tauto].
  - destruct (String.eqb_spec t controllerTarget) as [E|N].
    + subst t. split; auto.
    + rewrite IH. split; [auto | intros [E|H]; [congruence | exact H]].
Qed.

(** Two booleans that are [true] under equivalent conditions are equal. *)
Lemma bool_eq_of_iff (a b : bool) (P Q : Prop) :
  (a = true <-> P) -> (b = true <-> Q) -> (P <-> Q) -> a = b.
Proof.
  intros Ha Hb HPQ. destruct a, b; try reflexivity.
  - symmetry. apply Hb, HPQ, Ha. reflexivity.
  - apply Ha, HPQ, Hb. reflexivity.
Qed.

Lemma selection_same_members (g g' : Globals) :
  (forall t, In t (BuildTargets g) <-> In t (BuildTargets g')) ->
  buildApiserver g = buildApiserver g' /\
  buildController g = buildController g'.
Proof.
  intros H. unfold buildApiserver, buildController. split.
  - eapply bool_eq_of_iff;
      [apply range_apiserver_In | apply range_apiserver_In | apply H].
  - eapply bool_eq_of_iff;
      [apply range_controller_In | apply range_controller_In | apply H].
Qed.

End Selection.

(** C2. For every list of targets, [buildApiserver] answers [true] exactly
    when the string "apiserver" occurs in the list and [buildController]
    exactly when "controller" occurs in it; two lists with the same members
    (whatever their order and their repetitions) get the same two answers,
    in particular a permutation of a list and a list with an entry
    repeated. *)
Theorem C2_selection_is_membership :
  (forall g, buildApiserver g = true <-> In "apiserver" (BuildTargets g)) /\
  (forall g, buildController g = true <-> In "controller" (BuildTargets g)) /\
  (forall g g',
      (forall t, In t (BuildTargets g) <-> In t (BuildTargets g')) ->
      buildApiserver g = buildApiserver g' /\
      buildController g = buildController g') /\
  (forall g g',
      Permutation (BuildTargets g) (BuildTargets g') ->
      buildApiserver g = buildApiserver g' /\
      buildController g = buildController g') /\
  (forall os arch out bz gz t ts,
      let g := mkGlobals os arch out bz gz (t :: ts) in
      let g' := mkGlobals os arch out bz gz (t :: t :: ts) in
      buildApiserver g = buildApiserver g' /\
      buildController g = buildController g').
Proof.
  split; [|split; [|split; [|split]]].
  - intros g. apply range_apiserver_In.
  - intros g. apply range_controller_In.
  - exact selection_same_members.
  - intros g g' HP. apply selection_same_members. intros t. split.
    + apply Permutation_in. exact HP.
    + apply Permutation_in. apply Permutation_sym. exact HP.
  - intros os arch out bz gz t ts g g'. apply selection_same_members.
    intros x. subst g g'. simpl. tauto.
Qed.

(** ** The shape of a run of [GoBuild] *)

Lemma GoBuild_eq (g : Globals) (w : World) :
  GoBuild g w =
  if buildApiserver g then
    match Run w (apiserver_cmd g w) with
    | Some e =>
        (go_prelude ++ apiserver_log g w ++ [ERun (apiserver_cmd g w)],
         Fatal e)
    | None =>
        (go_prelude ++ apiserver_log g w ++ [ERun (apiserver_cmd g w)]
           ++ trace (controller_part g w),
         outcome (controller_part g w))
    end
  else (go_prelude ++ trace (controller_part g w),
        outcome (controller_part g w)).
Proof.
  unfold GoBuild, controller_part, apiserver_log, apiserver_cmd, cross_entries,
    go_prelude, run_cmd, check, Infof, RemoveAll, initApis, emit, bind, ret,
    trace, outcome, set_Env, Command, append.
  destruct (buildApiserver g); destruct (buildController g);
    destruct (strings.nonempty (goos g));
    destruct (strings.nonempty (goarch g));
    cbn -[filepath.Join controller_cmd String.append];
    rewrite <- ?app_assoc; cbn -[filepath.Join controller_cmd String.append];
    repeat match goal with
           | |- context [Run w ?c] => destruct (Run w c)
           end; reflexivity.
Qed.

Lemma trace_pair {A : Type} (t : list Event) (o : Outcome A) :
  trace (t, o) = t.
Proof. reflexivity. Qed.

Lemma outcome_pair {A : Type} (t : list Event) (o : Outcome A) :
  outcome (t, o) = o.
Proof. reflexivity. Qed.

Lemma spawned_app (t1 t2 : list Event) :
  spawned (t1 ++ t2) = spawned t1 ++ spawned t2.
Proof.
  induction t1 as [|ev t1 IH]; simpl; [reflexivity|].
  destruct ev; simpl; rewrite IH; reflexivity.
Qed.

Lemma removed_app (t1 t2 : list Event) :
  removed (t1 ++ t2) = removed t1 ++ removed t2.
Proof.
  induction t1 as [|ev t1 IH]; simpl; [reflexivity|].
  destruct ev; simpl; rewrite IH; reflexivity.
Qed.

Lemma spawned_In (t : list Event) (c : Cmd) :
  In c (spawned t) <-> In (ERun c) t.
Proof.
  induction t as [|ev t IH]; simpl; [tauto|].
  destruct ev; simpl; rewrite IH; split; intros H;
    try (destruct H as [H|H]; [discriminate || (left; congruence) | ]);
    auto.
Qed.

Lemma removed_In (t : list Event) (p : string) :
  In p (removed t) <-> In (ERemoveAll p) t.
Proof.
  induction t as [|ev t IH]; simpl; [tauto|].
  destruct ev; simpl; rewrite IH; split; intros H;
    try (destruct H as [H|H]; [discriminate || (left; congruence) | ]);
    auto.
Qed.

Lemma apiserver_log_quiet (g : Globals) (w : World) :
  spawned (apiserver_log g w) = [] /\ removed (apiserver_log g w) = [].
Proof.
  unfold apiserver_log.
  destruct (strings.nonempty (goos g)), (strings.nonempty (goarch g));
    split; reflexivity.
Qed.

Lemma controller_part_spawned (g : Globals) (w : World) :
  spawned (trace (controller_part g w)) =
  if buildController g then [controller_cmd g w] else [].
Proof.
  unfold controller_part. destruct (buildController g); reflexivity.
Qed.

Lemma controller_part_removed (g : Globals) (w : World) :
  removed (trace (controller_part g w)) = [].
Proof.
  unfold controller_part. destruct (buildController g); reflexivity.
Qed.

(** The commands a run of [GoBuild] spawns. *)
Lemma GoBuild_spawned (g : Globals) (w : World) :
  spawned (trace (GoBuild g w)) =
  if buildApiserver g then
    apiserver_cmd g w ::
    match Run w (apiserver_cmd g w) with
    | Some _ => []
    | None => if buildController g then [controller_cmd g w] else []
    end
  else if buildController g then [controller_cmd g w] else [].
Proof.
  rewrite GoBuild_eq.
  destruct (buildApiserver g); [destruct (Run w (apiserver_cmd g w))|];
    rewrite trace_pair; unfold go_prelude;
    rewrite ?spawned_app, ?controller_part_spawned;
    rewrite ?(proj1 (apiserver_log_quiet g w)); reflexivity.
Qed.

(** The paths a run of [GoBuild] removes: the same two, whatever the
    configuration and whatever the commands return. *)
Lemma GoBuild_removed (g : Globals) (w : World) :
  removed (trace (GoBuild g w)) = ["bin/apiserver"; "bin/controller-manager"].
Proof.
  rewrite GoBuild_eq.
  destruct (buildApiserver g); [destruct (Run w (apiserver_cmd g w))|];
    rewrite trace_pair; unfold go_prelude;
    rewrite ?removed_app, ?controller_part_removed;
    rewrite ?(proj2 (apiserver_log_quiet g w)); reflexivity.
Qed.

(** The two commands differ in their source entry point. *)
Lemma apiserver_cmd_neq_controller_cmd (g g' : Globals) (w w' : World) :
  apiserver_cmd g w <> controller_cmd g' w'.
Proof.
  intros H. apply (f_equal (fun c => last (Args c) "")) in H.
  unfold apiserver_cmd, controller_cmd in H.
  repeat match type of H with
         | context [if ?b then _ else _] => destruct b
         end; vm_compute in H; discriminate.
Qed.

(** ** The direct toolchain path: failure, removal, selection *)

(** C1. In the direct toolchain path, when the apiserver is selected and the
    run of its command returns an error (the program did not start, or it
    exited with a non-zero status), the command ends in [Fatal] with that
    error; the run is exactly the prelude, the log lines of the first block
    and the one failed command, so that command is the last event, it is the
    only command spawned (no retry), the command of the controller is not
    among the events whether or not the controller is selected, and the only
    removals are the two of the prelude (no cleanup after the failure). *)
Theorem C1_apiserver_failure_is_fatal (g : Globals) (w : World) (e : error) :
  Bazel g = false ->
  buildApiserver g = true ->
  Run w (apiserver_cmd g w) = Some e ->
  outcome (RunBuildExecutables g w) = Fatal e /\
  trace (RunBuildExecutables g w) =
    go_prelude ++ apiserver_log g w ++ [ERun (apiserver_cmd g w)] /\
  spawned (trace (RunBuildExecutables g w)) = [apiserver_cmd g w] /\
  ~ In (ERun (controller_cmd g w)) (trace (RunBuildExecutables g w)) /\
  removed (trace (RunBuildExecutables g w)) = removed go_prelude.
Proof.
  intros HB HA HR. unfold RunBuildExecutables. rewrite HB.
  assert (HS : spawned (trace (GoBuild g w)) = [apiserver_cmd g w]).
  { rewrite GoBuild_spawned, HA, HR. reflexivity. }
  split; [|split; [|split; [|split]]].
  - rewrite GoBuild_eq, HA, HR. reflexivity.
  - rewrite GoBuild_eq, HA, HR. reflexivity.
  - exact HS.
  - intros HIn. apply spawned_In in HIn. rewrite HS in HIn.
    destruct HIn as [E|[]].
    exact (apiserver_cmd_neq_controller_cmd g g w w E).
  - rewrite GoBuild_removed. reflexivity.
Qed.

(** C1 at a concrete input: both targets selected, every command failing. *)
Lemma C1_apiserver_failure_is_fatal_witness :
  buildController cross_globals = true /\
  outcome (RunBuildExecutables cross_globals world_fail)
    = Fatal (ExitError 1) /\
  spawned (trace (RunBuildExecutables cross_globals world_fail))
    = [apiserver_cmd cross_globals world_fail].
Proof.
  split; [reflexivity|].
  destruct (C1_apiserver_failure_is_fatal cross_globals world_fail
              (ExitError 1) eq_refl eq_refl eq_refl) as (Ho & _ & Hs & _).
  split; [exact Ho | exact Hs].
Defined.

(** C3. The removal of the stale binaries does not follow the configured
    output directory: with [--output linux] the command removes
    [bin/apiserver] and [bin/controller-manager], while the two builds write
    (the argument after [-o]) to [linux/apiserver] and
    [linux/controller-manager]; neither removed path is an output path. The
    removal itself cannot fail the command: the two removals are performed
    and the run goes on to its builds. *)
Theorem C3_removal_ignores_outputdir :
  removed (trace (GoBuild cross_globals world_ok))
    = ["bin/apiserver"; "bin/controller-manager"] /\
  map (fun c => nth 3 (Args c) "") (spawned (trace (GoBuild cross_globals world_ok)))
    = ["linux/apiserver"; "linux/controller-manager"] /\
  (forall p, In p (removed (trace (GoBuild cross_globals world_ok))) ->
             ~ In p ["linux/apiserver"; "linux/controller-manager"]) /\
  outcome (GoBuild cross_globals world_ok) = Done tt.
Proof.
  split; [reflexivity|]. split; [reflexivity|]. split; [|reflexivity].
  intros p Hp. vm_compute in Hp. intros Hq. simpl in Hq.
  destruct Hp as [E|[E|[]]]; subst p;
    destruct Hq as [E|[E|[]]]; discriminate.
Qed.

(** C4. The two stale binaries are removed by every run of the direct path,
    whatever the targets; with the controller as the only target the run
    spawns one command, the build of the controller manager (source entry
    point [cmd/manager/main.go]), and the command of the apiserver is not
    among its events. *)
Theorem C4_controller_only (os arch out : string) (gz : bool) (w : World) :
  (forall g, Bazel g = false ->
             removed (trace (RunBuildExecutables g w))
             = ["bin/apiserver"; "bin/controller-manager"]) /\
  let g := mkGlobals os arch out false gz ["controller"] in
  removed (trace (RunBuildExecutables g w))
    = ["bin/apiserver"; "bin/controller-manager"] /\
  spawned (trace (RunBuildExecutables g w)) = [controller_cmd g w] /\
  last (Args (controller_cmd g w)) "" = "cmd/manager/main.go" /\
  ~ In (ERun (apiserver_cmd g w)) (trace (RunBuildExecutables g w)) /\
  (forall c, In (ERun c) (trace (RunBuildExecutables g w)) ->
             last (Args c) "" <> "cmd/apiserver/main.go").
Proof.
  split.
  { intros g HB. unfold RunBuildExecutables. rewrite HB.
    apply GoBuild_removed. }
  intros g.
  assert (HS : spawned (trace (RunBuildExecutables g w))
               = [controller_cmd g w]).
  { unfold RunBuildExecutables. simpl Bazel. cbv iota.
    rewrite GoBuild_spawned. reflexivity. }
  assert (HL : last (Args (controller_cmd g w)) "" = "cmd/manager/main.go").
  { unfold controller_cmd.
    repeat match goal with
           | |- context [if ?b then _ else _] => destruct b
           end; reflexivity. }
  split; [apply GoBuild_removed|]. split; [exact HS|]. split; [exact HL|].
  split.
  - intros HIn. apply spawned_In in HIn. rewrite HS in HIn.
    destruct HIn as [E|[]]. symmetry in E.
    exact (apiserver_cmd_neq_controller_cmd g g w w E).
  - intros c HIn. apply spawned_In in HIn. rewrite HS in HIn.
    destruct HIn as [E|[]]. subst c. rewrite HL. discriminate.
Qed.

(** ** Environments of the two builds *)

Section Environments.

Variables (g : Globals) (w : World).

(** Every entry the flags add has the key [GOOS] or [GOARCH], and the entry
    of a flag is there exactly when the flag is not empty. *)
Lemma cross_entries_In (e : string) :
  In e (cross_entries g) <->
  (goos g <> "" /\ e = ("GOOS=" ++ goos g)%string) \/
  (goarch g <> "" /\ e = ("GOARCH=" ++ goarch g)%string).
Proof.
  unfold cross_entries.
  destruct (strings.nonempty (goos g)) eqn:Hos;
    [apply nonempty_true in Hos | apply nonempty_false in Hos];
    (destruct (strings.nonempty (goarch g)) eqn:Harch;
     [apply nonempty_true in Harch | apply nonempty_false in Harch]);
    simpl; split; intros H;
    repeat match type of H with
           | _ \/ _ => destruct H as [H|H]
           | _ /\ _ => destruct H as [? H]
           | False => destruct H
           end; subst; try contradiction; auto.
Qed.

Lemma cross_entries_key (e : string) :
  In e (cross_entries g) ->
  os.entry_key e = "GOOS" \/ os.entry_key e = "GOARCH".
Proof.
  rewrite cross_entries_In. intros [[_ E]|[_ E]]; subst e;
    [left | right]; reflexivity.
Qed.

Lemma apiserver_child_env :
  child_env w (apiserver_cmd g w)
  = Environ w ++ "CGO_ENABLED=0" :: cross_entries g.
Proof. reflexivity. Qed.

(** The environment of the controller's command: three shapes, by what the
    ambient environment says of [CGO_ENABLED] and of the variable named
    [%LocalAppData%]. *)
Lemma controller_Env :
  Env (controller_cmd g w) =
  if strings.nonempty (Getenv w "CGO_ENABLED") then
    if strings.nonempty (Getenv w "%LocalAppData%") then
      Some (("GOCACHE=" ++ Getenv w "GOCACHE")%string
              :: ("LocalAppData=" ++ Getenv w "%LocalAppData%")%string
              :: cross_entries g)
    else match cross_entries g with
         | [] => None
         | l => Some l
         end
  else Some (Environ w ++ "CGO_ENABLED=0" :: cross_entries g).
Proof.
  unfold controller_cmd, cross_entries, set_Env, Command, append.
  rewrite length_zero_nonempty.
  destruct (strings.nonempty (Getenv w "CGO_ENABLED"));
    destruct (strings.nonempty (Getenv w "%LocalAppData%"));
    destruct (strings.nonempty (goos g));
    destruct (strings.nonempty (goarch g));
    cbn -[String.append]; rewrite <- ?app_assoc; reflexivity.
Qed.

Lemma controller_child_env :
  child_env w (controller_cmd g w) =
  if strings.nonempty (Getenv w "CGO_ENABLED") then
    if strings.nonempty (Getenv w "%LocalAppData%") then
      ("GOCACHE=" ++ Getenv w "GOCACHE")%string
        :: ("LocalAppData=" ++ Getenv w "%LocalAppData%")%string
        :: cross_entries g
    else match cross_entries g with
         | [] => Environ w
         | l => l
         end
  else Environ w ++ "CGO_ENABLED=0" :: cross_entries g.
Proof.
  unfold child_env. rewrite controller_Env.
  destruct (strings.nonempty (Getenv w "CGO_ENABLED"));
    destruct (strings.nonempty (Getenv w "%LocalAppData%"));
    try reflexivity.
  destruct (cross_entries g); reflexivity.
Qed.

(** An entry of the controller's child environment is an ambient entry, the
    forced [CGO_ENABLED=0], one of the two gated entries, or an entry of the
    flags. *)
Lemma controller_child_env_In (e : string) :
  In e (child_env w (controller_cmd g w)) ->
  In e (Environ w) \/
  (Getenv w "CGO_ENABLED" = "" /\ e = "CGO_ENABLED=0") \/
  (Getenv w "%LocalAppData%" <> "" /\
   (e = ("GOCACHE=" ++ Getenv w "GOCACHE")%string \/
    e = ("LocalAppData=" ++ Getenv w "%LocalAppData%")%string)) \/
  In e (cross_entries g).
Proof.
  rewrite controller_child_env.
  destruct (strings.nonempty (Getenv w "CGO_ENABLED")) eqn:Hcgo;
    [destruct (strings.nonempty (Getenv w "%LocalAppData%")) eqn:Hlad|].
  - apply nonempty_true in Hlad. simpl. intuition auto.
  - destruct (cross_entries g) as [|x l]; intuition auto.
  - apply nonempty_false in Hcgo. rewrite in_app_iff. simpl.
    intuition auto.
Qed.

(** The entries of the flags are in the controller's child environment. *)
Lemma controller_child_env_cross (e : string) :
  In e (cross_entries g) -> In e (child_env w (controller_cmd g w)).
Proof.
  rewrite controller_child_env. intros H.
  destruct (strings.nonempty (Getenv w "CGO_ENABLED"));
    [destruct (strings.nonempty (Getenv w "%LocalAppData%"))|].
  - right. right. exact H.
  - destruct (cross_entries g); [destruct H | exact H].
  - apply in_or_app. right. right. exact H.
Qed.

Lemma apiserver_child_env_In (e : string) :
  In e (child_env w (apiserver_cmd g w)) <->
  In e (Environ w) \/ e = "CGO_ENABLED=0" \/ In e (cross_entries g).
Proof.
  rewrite apiserver_child_env, in_app_iff. simpl.
  intuition auto.
Qed.

End Environments.

(** The commands of a run of the direct path are those of the two blocks. *)
Lemma GoBuild_spawned_toolchain (g : Globals) (w : World) (c : Cmd) :
  In (ERun c) (trace (GoBuild g w)) -> toolchain_cmd g w c.
Proof.
  intros H. apply spawned_In in H. rewrite GoBuild_spawned in H.
  unfold toolchain_cmd.
  destruct (buildApiserver g); [destruct (Run w (apiserver_cmd g w))|];
    destruct (buildController g); simpl in H; intuition auto.
Qed.

(** Keys of the entries the builder writes. *)
Lemma cross_entries_has_key_cgo (g : Globals) (e : string) :
  In e (cross_entries g) -> os.has_key "CGO_ENABLED" e = false.
Proof.
  intros H. apply cross_entries_In in H.
  destruct H as [[_ E]|[_ E]]; subst e; reflexivity.
Qed.

Lemma find_none_app {A : Type} (f : A -> bool) (l1 l2 : list A) :
  (forall x, In x l1 -> f x = false) -> find f (l1 ++ l2) = find f l2.
Proof.
  induction l1 as [|a l1 IH]; simpl; intros H; [reflexivity|].
  rewrite (H a (or_introl eq_refl)). apply IH. intros x Hx. apply H. auto.
Qed.

(** In a list of entries, the last entry with a key decides its value. *)
Lemma lookup_last_decided (env tail : list string) (key k v : string)
      (e : string) :
  os.split_entry e = Some (k, v) ->
  (k =? key) = true ->
  (forall x, In x tail -> os.has_key key x = false) ->
  os.lookup_last (env ++ e :: tail) key = Some v.
Proof.
  intros He Hk Htail. unfold os.lookup_last, os.lookup_first.
  rewrite rev_app_distr. simpl rev. rewrite <- !app_assoc.
  rewrite find_none_app.
  - simpl. unfold os.has_key at 1. rewrite He, Hk. rewrite He. reflexivity.
  - intros x Hx. apply Htail. apply in_rev. exact Hx.
Qed.

(** Every command of the direct path is the command of the apiserver or
    of the controller; in the child environment of either, the entry
    [GOOS=<goos>] is present when the flag is not empty, every entry with
    the key [GOOS] is an ambient entry or that entry (so with an empty flag
    nothing with the key [GOOS] is added), and the same for [GOARCH]; with
    both flags empty the entries with these keys are ambient ones, and with
    [linux] and [arm64] the child environment contains [GOOS=linux] and
    [GOARCH=arm64]. *)
Lemma toolchain_cross_compile_entries (g : Globals) (w : World) :
  (forall c, Bazel g = false ->
             In (ERun c) (trace (RunBuildExecutables g w)) ->
             toolchain_cmd g w c) /\
  (forall c, toolchain_cmd g w c ->
     (goos g <> "" -> In ("GOOS=" ++ goos g)%string (child_env w c)) /\
     (goarch g <> "" -> In ("GOARCH=" ++ goarch g)%string (child_env w c)) /\
     (forall e, In e (child_env w c) -> os.entry_key e = "GOOS" ->
                In e (Environ w) \/
                (goos g <> "" /\ e = ("GOOS=" ++ goos g)%string)) /\
     (forall e, In e (child_env w c) -> os.entry_key e = "GOARCH" ->
                In e (Environ w) \/
                (goarch g <> "" /\ e = ("GOARCH=" ++ goarch g)%string)) /\
     (goos g = "" -> goarch g = "" ->
      forall e, In e (child_env w c) ->
                os.entry_key e = "GOOS" \/ os.entry_key e = "GOARCH" ->
                In e (Environ w)) /\
     (goos g = "linux" -> goarch g = "arm64" ->
      In "GOOS=linux" (child_env w c) /\
      In "GOARCH=arm64" (child_env w c))).
Proof.
  split.
  { intros c HB H. unfold RunBuildExecutables in H. rewrite HB in H.
    apply GoBuild_spawned_toolchain. exact H. }
  intros c Hc.
  assert (Hin : forall e, In e (cross_entries g) -> In e (child_env w c)).
  { intros e He. destruct Hc as [-> | ->].
    - apply apiserver_child_env_In. auto.
    - apply controller_child_env_cross. exact He. }
  assert (Hout : forall e, In e (child_env w c) ->
                   In e (Environ w) \/ In e (cross_entries g) \/
                   os.entry_key e = "CGO_ENABLED" \/
                   os.entry_key e = "GOCACHE" \/
                   os.entry_key e = "LocalAppData").
  { intros e He. destruct Hc as [-> | ->].
    - apply apiserver_child_env_In in He.
      destruct He as [He|[He|He]]; auto. subst e. auto.
    - apply controller_child_env_In in He.
      destruct He as [He|[[_ He]|[[_ [He|He]]|He]]]; subst; auto 6. }
  assert (Hos : goos g <> "" -> In ("GOOS=" ++ goos g)%string (child_env w c)).
  { intros H. apply Hin, cross_entries_In. auto. }
  assert (Harch : goarch g <> "" ->
                  In ("GOARCH=" ++ goarch g)%string (child_env w c)).
  { intros H. apply Hin, cross_entries_In. auto. }
  assert (Hkos : forall e, In e (child_env w c) -> os.entry_key e = "GOOS" ->
                   In e (Environ w) \/
                   (goos g <> "" /\ e = ("GOOS=" ++ goos g)%string)).
  { intros e He Hk. destruct (Hout e He) as [H|[H|[H|[H|H]]]];
      try (rewrite Hk in H; discriminate); auto.
    apply cross_entries_In in H. destruct H as [H|[_ H]]; auto.
    subst e. discriminate Hk. }
  assert (Hkarch : forall e, In e (child_env w c) ->
                     os.entry_key e = "GOARCH" ->
                     In e (Environ w) \/
                     (goarch g <> "" /\ e = ("GOARCH=" ++ goarch g)%string)).
  { intros e He Hk. destruct (Hout e He) as [H|[H|[H|[H|H]]]];
      try (rewrite Hk in H; discriminate); auto.
    apply cross_entries_In in H. destruct H as [[_ H]|H]; auto.
    subst e. discriminate Hk. }
  split; [exact Hos|]. split; [exact Harch|]. split; [exact Hkos|].
  split; [exact Hkarch|]. split.
  - intros Eos Earch e He [Hk|Hk].
    + destruct (Hkos e He Hk) as [H|[H _]]; [exact H | contradiction].
    + destruct (Hkarch e He Hk) as [H|[H _]]; [exact H | contradiction].
  - intros Eos Earch. split.
    + change "GOOS=linux" with ("GOOS=" ++ "linux")%string.
      rewrite <- Eos. apply Hos. rewrite Eos. discriminate.
    + change "GOARCH=arm64" with ("GOARCH=" ++ "arm64")%string.
      rewrite <- Earch. apply Harch. rewrite Earch. discriminate.
Qed.

(** The child environment of the apiserver's command contains
    [CGO_ENABLED=0] and gives the variable the value 0, whatever the ambient
    environment says. For the controller: when the ambient [CGO_ENABLED] is
    unset or empty the entry is added and decides the value; when it is set
    to a non-empty value, the environment the command is given has no entry
    with that key, and the entries with that key in the child environment
    are ambient ones. *)
Lemma toolchain_cgo_enabled (g : Globals) (w : World) :
  (In "CGO_ENABLED=0" (child_env w (apiserver_cmd g w)) /\
   os.lookup_last (child_env w (apiserver_cmd g w)) "CGO_ENABLED"
   = Some "0") /\
  (Getenv w "CGO_ENABLED" = "" ->
   In "CGO_ENABLED=0" (child_env w (controller_cmd g w)) /\
   os.lookup_last (child_env w (controller_cmd g w)) "CGO_ENABLED"
   = Some "0") /\
  (Getenv w "CGO_ENABLED" <> "" ->
   (forall l, Env (controller_cmd g w) = Some l ->
              forall e, In e l -> os.entry_key e <> "CGO_ENABLED") /\
   (forall e, In e (child_env w (controller_cmd g w)) ->
              os.entry_key e = "CGO_ENABLED" -> In e (Environ w))).
Proof.
  assert (Hforced :
            In "CGO_ENABLED=0" (Environ w ++ "CGO_ENABLED=0" :: cross_entries g)
            /\ os.lookup_last
                 (Environ w ++ "CGO_ENABLED=0" :: cross_entries g)
                 "CGO_ENABLED" = Some "0").
  { split.
    - apply in_or_app. right. left. reflexivity.
    - apply lookup_last_decided with (k := "CGO_ENABLED");
        [reflexivity | reflexivity | apply cross_entries_has_key_cgo]. }
  split; [|split].
  - rewrite apiserver_child_env. exact Hforced.
  - intros H. apply nonempty_false in H.
    rewrite controller_child_env, H. exact Hforced.
  - intros H. apply nonempty_true in H.
    assert (Hcross : forall e, In e (cross_entries g) ->
                               os.entry_key e <> "CGO_ENABLED").
    { intros e He. apply cross_entries_key in He.
      destruct He as [-> | ->]; discriminate. }
    split.
    + intros l Hl e He. rewrite controller_Env, H in Hl.
      destruct (strings.nonempty (Getenv w "%LocalAppData%")).
      * injection Hl as <-. destruct He as [<-|[<-|He]];
          [discriminate | discriminate | apply Hcross; exact He].
      * destruct (cross_entries g) as [|x l'] eqn:E; [discriminate|].
        injection Hl as <-. apply Hcross. exact He.
    + intros e He Hk. apply controller_child_env_In in He.
      destruct He as [He|[[He _]|[[_ [He|He]]|He]]].
      * exact He.
      * apply nonempty_true in H. contradiction.
      * subst e. discriminate Hk.
      * subst e. discriminate Hk.
      * apply Hcross in He. contradiction.
Qed.

(** The apiserver's command inherits the ambient environment, and so does
    the controller's when the ambient [CGO_ENABLED] is unset or empty. *)
Lemma apiserver_inherits (g : Globals) (w : World) (e : string) :
  In e (Environ w) -> In e (child_env w (apiserver_cmd g w)).
Proof. intros H. apply apiserver_child_env_In. auto. Qed.

Lemma controller_inherits_without_cgo (g : Globals) (w : World) (e : string) :
  Getenv w "CGO_ENABLED" = "" ->
  In e (Environ w) -> In e (child_env w (controller_cmd g w)).
Proof.
  intros H He. apply nonempty_false in H.
  rewrite controller_child_env, H. apply in_or_app. auto.
Qed.

(** C7. With [CGO_ENABLED=1] in the ambient environment and the flags
    [--goos linux --goarch arm64], both builds are spawned; the apiserver's
    child environment holds every ambient entry, but the controller's is the
    two entries [GOOS=linux] and [GOARCH=arm64] alone: the ambient entry
    [PATH=/usr/bin] is not in it. *)
Theorem C7_controller_env_drops_ambient :
  spawned (trace (RunBuildExecutables cross_globals world_cgo))
    = [apiserver_cmd cross_globals world_cgo;
       controller_cmd cross_globals world_cgo] /\
  (forall e, In e (Environ world_cgo) ->
             In e (child_env world_cgo
                     (apiserver_cmd cross_globals world_cgo))) /\
  child_env world_cgo (controller_cmd cross_globals world_cgo)
    = ["GOOS=linux"; "GOARCH=arm64"] /\
  In "PATH=/usr/bin" (Environ world_cgo) /\
  ~ In "PATH=/usr/bin"
       (child_env world_cgo (controller_cmd cross_globals world_cgo)).
Proof.
  split; [reflexivity|]. split; [apply apiserver_inherits|].
  split; [reflexivity|]. split; [left; reflexivity|].
  intros H. vm_compute in H. destruct H as [H|[H|[]]]; discriminate.
Qed.

(** The gate of the two extra entries is real: with the variable named
    [%LocalAppData%] set (and [CGO_ENABLED] set), the controller's command
    is given the two entries. *)
Example controller_env_gate_open :
  Env (controller_cmd default_globals world_lad)
  = Some ["GOCACHE=/cache"; "LocalAppData=/data"].
Proof. reflexivity. Qed.

(** C8. When the ambient variable whose name is the string [%LocalAppData%],
    percent signs included, is unset or empty, the controller's command gets
    neither extra entry: its environment is what the remaining statements of
    the block build, and every entry of its child environment with the key
    [GOCACHE] or [LocalAppData] is an ambient entry. *)
Theorem C8_gated_entries (g : Globals) (w : World) :
  Getenv w "%LocalAppData%" = "" ->
  Env (controller_cmd g w)
    = (if strings.nonempty (Getenv w "CGO_ENABLED")
       then match cross_entries g with
            | [] => None
            | l => Some l
            end
       else Some (Environ w ++ "CGO_ENABLED=0" :: cross_entries g)) /\
  (forall e, In e (child_env w (controller_cmd g w)) ->
             os.entry_key e = "GOCACHE" \/ os.entry_key e = "LocalAppData" ->
             In e (Environ w)).
Proof.
  intros H. split.
  - rewrite controller_Env. apply nonempty_false in H. rewrite H.
    reflexivity.
  - intros e He Hk. apply controller_child_env_In in He.
    destruct He as [He|[[_ He]|[[Hne _]|He]]].
    + exact He.
    + subst e. destruct Hk as [Hk|Hk]; discriminate Hk.
    + contradiction.
    + apply cross_entries_key in He.
      destruct He as [He|He], Hk as [Hk|Hk]; rewrite He in Hk; discriminate.
Qed.

(** C8 at a concrete input: an environment without the variable. *)
Lemma C8_gated_entries_witness :
  Getenv world_ok "%LocalAppData%" = "" /\
  Env (controller_cmd cross_globals world_ok)
  = Some ["PATH=/usr/bin"; "HOME=/root"; "CGO_ENABLED=0"; "GOOS=linux";
          "GOARCH=arm64"].
Proof.
  split; [reflexivity|].
  destruct (C8_gated_entries cross_globals world_ok eq_refl) as [HE _].
  rewrite HE. reflexivity.
Defined.

(** ** The shape of a run of [BazelBuild] *)

Ltac bazel_run_cases g w :=
  unfold BazelBuild, bazel_plan, bazel_plan_build, bazel_plan_copy,
    bazel_build_cmd, update_repos_cmd, gazelle_cmd, cp_apiserver_cmd,
    cp_manager_cmd, run_cmd, check, Infof, RemoveAll, initApis, emit, bind,
    ret, trace, outcome, Command;
  destruct (Gazelle g); destruct (Stat w "go.mod");
  destruct (buildApiserver g); destruct (buildController g);
  cbn;
  repeat match goal with
         | |- context [Run w ?c] => destruct (Run w c); cbn
         end.

(** A run of [BazelBuild] spawns the commands of its plan in order and stops
    at the first that fails, with the error of that command. *)
Lemma BazelBuild_runs (g : Globals) (w : World) :
  spawned (trace (BazelBuild g w)) = fst (run_all w (bazel_plan g w)) /\
  outcome (BazelBuild g w) = snd (run_all w (bazel_plan g w)).
Proof. bazel_run_cases g w; split; reflexivity. Qed.

(** The stale binaries are removed once the commands before the removal have
    all succeeded, and not otherwise. *)
Lemma BazelBuild_removed (g : Globals) (w : World) :
  removed (trace (BazelBuild g w)) =
  match snd (run_all w (bazel_plan_build g w)) with
  | Done _ => ["bin/apiserver"; "bin/controller-manager"]
  | Fatal _ => []
  end.
Proof. bazel_run_cases g w; reflexivity. Qed.

Lemma run_all_incl (w : World) (cs : list Cmd) (c : Cmd) :
  In c (fst (run_all w cs)) -> In c cs.
Proof.
  induction cs as [|c0 rest IH]; simpl; [tauto|].
  destruct (Run w c0).
  - simpl. intros [H|[]]. auto.
  - destruct (run_all w rest) as [l o]. simpl in *. intros [H|H]; auto.
Qed.

Lemma run_all_ok (w : World) (cs : list Cmd) :
  (forall c, In c cs -> Run w c = None) -> run_all w cs = (cs, Done tt).
Proof.
  induction cs as [|c0 rest IH]; simpl; intros H; [reflexivity|].
  rewrite (H c0 (or_introl eq_refl)), IH; auto.
Qed.

Lemma BazelBuild_spawned_plan (g : Globals) (w : World) (c : Cmd) :
  In (ERun c) (trace (BazelBuild g w)) -> In c (bazel_plan g w).
Proof.
  intros H. apply spawned_In in H.
  rewrite (proj1 (BazelBuild_runs g w)) in H.
  apply run_all_incl in H. exact H.
Qed.

Lemma run_all_fail (w : World) (c : Cmd) (rest : list Cmd) (e : error) :
  Run w c = Some e -> run_all w (c :: rest) = ([c], Fatal e).
Proof. intros H. simpl. rewrite H. reflexivity. Qed.

Lemma run_all_head (w : World) (c : Cmd) (rest : list Cmd) :
  hd_error (fst (run_all w (c :: rest))) = Some c.
Proof.
  simpl. destruct (Run w c); [reflexivity|].
  destruct (run_all w rest); reflexivity.
Qed.

Lemma run_all_next (w : World) (c c' : Cmd) (rest : list Cmd) :
  Run w c = None ->
  nth_error (fst (run_all w (c :: c' :: rest))) 1 = Some c'.
Proof.
  intros H. pose proof (run_all_head w c' rest) as Hhd.
  cbn [run_all]. rewrite H. cbn [run_all] in Hhd.
  destruct (Run w c'); [reflexivity|].
  destruct (run_all w rest); reflexivity.
Qed.

Lemma run_all_next_fail (w : World) (c c' : Cmd) (rest : list Cmd)
      (e : error) :
  Run w c = None -> Run w c' = Some e ->
  run_all w (c :: c' :: rest) = ([c; c'], Fatal e).
Proof. intros H H'. simpl. rewrite H, H'. reflexivity. Qed.

(** ** The Bazel path: gazelle, removal and copy *)

(** C9. In the Bazel path with [--gazelle]: without [go.mod] the
    [update-repos] command is not among the events and the first command
    spawned is [bazel run //:gazelle]; with [go.mod] the first command is
    [update-repos] with its fixed arguments, and [bazel run //:gazelle]
    follows when it succeeds. When either command returns an error the
    outcome is [Fatal] with that error and nothing is spawned after it. *)
Theorem C9_gazelle_regeneration (g : Globals) (w : World) :
  Bazel g = true ->
  Gazelle g = true ->
  Args update_repos_cmd
    = ["bazel"; "run"; "//:gazelle"; "--"; "update-repos";
       "--from_file=go.mod"; "--to_macro=repos.bzl%go_repositories";
       "--build_file_generation=on"; "--build_file_proto_mode=disable";
       "--prune"] /\
  Args gazelle_cmd = ["bazel"; "run"; "//:gazelle"] /\
  (Stat w "go.mod" = false ->
   ~ In (ERun update_repos_cmd) (trace (RunBuildExecutables g w)) /\
   hd_error (spawned (trace (RunBuildExecutables g w))) = Some gazelle_cmd /\
   (forall e, Run w gazelle_cmd = Some e ->
              outcome (RunBuildExecutables g w) = Fatal e /\
              spawned (trace (RunBuildExecutables g w)) = [gazelle_cmd])) /\
  (Stat w "go.mod" = true ->
   hd_error (spawned (trace (RunBuildExecutables g w)))
   = Some update_repos_cmd /\
   (forall e, Run w update_repos_cmd = Some e ->
              outcome (RunBuildExecutables g w) = Fatal e /\
              spawned (trace (RunBuildExecutables g w))
              = [update_repos_cmd]) /\
   (Run w update_repos_cmd = None ->
    nth_error (spawned (trace (RunBuildExecutables g w))) 1
    = Some gazelle_cmd /\
    (forall e, Run w gazelle_cmd = Some e ->
               outcome (RunBuildExecutables g w) = Fatal e /\
               spawned (trace (RunBuildExecutables g w))
               = [update_repos_cmd; gazelle_cmd]))).
Proof.
  intros HB HG. unfold RunBuildExecutables. rewrite HB.
  destruct (BazelBuild_runs g w) as [Hs Ho]. rewrite Hs, Ho.
  split; [reflexivity|]. split; [reflexivity|].
  split; intros Hstat.
  - split.
    + intros H. apply BazelBuild_spawned_plan in H.
      unfold bazel_plan, bazel_plan_build, bazel_plan_copy in H.
      rewrite HG, Hstat in H. unfold bazel_build_cmd in H.
      destruct (buildApiserver g), (buildController g); simpl in H;
        repeat match type of H with
               | _ \/ _ => destruct H as [H|H]
               | False => destruct H
               | _ = _ => discriminate H
               end.
    + unfold bazel_plan, bazel_plan_build. rewrite HG, Hstat.
      cbn [app]. split; [apply run_all_head|].
      intros e He. rewrite (run_all_fail _ _ _ _ He). split; reflexivity.
  - unfold bazel_plan, bazel_plan_build. rewrite HG, Hstat. cbn [app].
    split; [apply run_all_head|]. split.
    + intros e He. rewrite (run_all_fail _ _ _ _ He). split; reflexivity.
    + intros Hu. split; [apply run_all_next; exact Hu|].
      intros e He. rewrite (run_all_next_fail _ _ _ _ _ Hu He).
      split; reflexivity.
Qed.

(** C9 at concrete inputs: with [go.mod] and every command succeeding, and
    without [go.mod] and every command failing. *)
Lemma C9_gazelle_regeneration_witness :
  Stat world_ok "go.mod" = true /\
  hd_error (spawned (trace (RunBuildExecutables bazel_globals world_ok)))
  = Some update_repos_cmd /\
  nth_error (spawned (trace (RunBuildExecutables bazel_globals world_ok))) 1
  = Some gazelle_cmd.
Proof.
  split; [reflexivity|].
  destruct (C9_gazelle_regeneration bazel_globals world_ok eq_refl eq_refl)
    as (_ & _ & _ & Hmod).
  destruct (Hmod eq_refl) as (Hhd & _ & Hnext).
  split; [exact Hhd | exact (proj1 (Hnext eq_refl))].
Defined.

(** C10. In the Bazel path the only paths ever removed are [bin/apiserver]
    and [bin/controller-manager], so [bin/manager] is never removed; the
    only [cp] commands are the two copies, whose destinations are
    [bin/apiserver] and [bin/manager], so [bin/controller-manager] is never
    a copy destination. When every command succeeds both removals happen,
    and with the controller selected the copy to [bin/manager] is
    spawned. *)
Theorem C10_bazel_removal_and_copy (g : Globals) (w : World) :
  (forall p, In (ERemoveAll p) (trace (BazelBuild g w)) ->
             p = "bin/apiserver" \/ p = "bin/controller-manager") /\
  ~ In (ERemoveAll "bin/manager") (trace (BazelBuild g w)) /\
  Args cp_apiserver_cmd
    = ["cp"; "bazel-bin/cmd/apiserver/apiserver_/apiserver";
       "bin/apiserver"] /\
  Args cp_manager_cmd
    = ["cp"; "bazel-bin/cmd/manager/manager_/manager"; "bin/manager"] /\
  (forall c, In (ERun c) (trace (BazelBuild g w)) ->
             hd "" (Args c) = "cp" ->
             (c = cp_apiserver_cmd /\ buildApiserver g = true) \/
             (c = cp_manager_cmd /\ buildController g = true)) /\
  (forall c, In (ERun c) (trace (BazelBuild g w)) ->
             hd "" (Args c) = "cp" ->
             last (Args c) "" <> "bin/controller-manager") /\
  ((forall c, Run w c = None) ->
   removed (trace (BazelBuild g w))
   = ["bin/apiserver"; "bin/controller-manager"] /\
   (buildController g = true ->
    In (ERun cp_manager_cmd) (trace (BazelBuild g w)))).
Proof.
  assert (Hrm : forall p, In (ERemoveAll p) (trace (BazelBuild g w)) ->
                  p = "bin/apiserver" \/ p = "bin/controller-manager").
  { intros p H. apply removed_In in H. rewrite BazelBuild_removed in H.
    destruct (snd (run_all w (bazel_plan_build g w))); simpl in H;
      intuition auto. }
  assert (Hcp : forall c, In (ERun c) (trace (BazelBuild g w)) ->
                  hd "" (Args c) = "cp" ->
                  (c = cp_apiserver_cmd /\ buildApiserver g = true) \/
                  (c = cp_manager_cmd /\ buildController g = true)).
  { intros c H Hhd. apply BazelBuild_spawned_plan in H.
    unfold bazel_plan, bazel_plan_build, bazel_plan_copy in H.
    rewrite !in_app_iff in H.
    destruct H as [[H|H]|[H|H]].
    - destruct (Gazelle g); [|destruct H].
      rewrite in_app_iff in H. destruct H as [H|H].
      + destruct (Stat w "go.mod"); [|destruct H].
        destruct H as [<-|[]]. discriminate Hhd.
      + destruct H as [<-|[]]. discriminate Hhd.
    - destruct H as [<-|[]]. discriminate Hhd.
    - destruct (buildApiserver g); [|destruct H].
      destruct H as [<-|[]]. auto.
    - destruct (buildController g); [|destruct H].
      destruct H as [<-|[]]. auto. }
  split; [exact Hrm|]. split.
  { intros H. apply Hrm in H. destruct H as [H|H]; discriminate H. }
  split; [reflexivity|]. split; [reflexivity|]. split; [exact Hcp|].
  split.
  { intros c H Hhd. destruct (Hcp c H Hhd) as [[-> _]|[-> _]]; discriminate. }
  intros Hok. split.
  - rewrite BazelBuild_removed, run_all_ok; [reflexivity | auto].
  - intros HC. apply spawned_In.
    rewrite (proj1 (BazelBuild_runs g w)), run_all_ok by auto.
    simpl. unfold bazel_plan, bazel_plan_copy. rewrite HC.
    rewrite !in_app_iff. right. right. left. reflexivity.
Qed.

(** * Further properties *)

(** ** Failing fast *)

(** What [run_all] returns: the commands before the last one it ran
    succeeded; it is [Done] when it ran the whole list with success, and
    [Fatal e] when the last command it ran returned [e]. *)
Lemma run_all_spec (w : World) (cs : list Cmd) :
  (forall c, In c (removelast (fst (run_all w cs))) -> Run w c = None) /\
  match snd (run_all w cs) with
  | Done _ => fst (run_all w cs) = cs /\ forall c, In c cs -> Run w c = None
  | Fatal e => exists pre c, fst (run_all w cs) = pre ++ [c] /\
                             Run w c = Some e
  end.
Proof.
  induction cs as [|c0 rest [IHp IHo]]; simpl.
  - split; [intros c []|]. split; [reflexivity | intros c []].
  - destruct (Run w c0) as [e|] eqn:E0; simpl.
    + split; [intros c []|]. exists [], c0. auto.
    + destruct (run_all w rest) as [l o]. simpl in *. split.
      * intros c Hc. destruct l as [|c1 l]; [destruct Hc|].
        destruct Hc as [<-|Hc]; [exact E0 | apply IHp; exact Hc].
      * destruct o as [u|e].
        -- destruct IHo as [-> Hall]. split; [reflexivity|].
           intros c [<-|Hc]; auto.
        -- destruct IHo as (pre & c & -> & Hc). exists (c0 :: pre), c. auto.
Qed.

Lemma GoBuild_runs (g : Globals) (w : World) :
  spawned (trace (GoBuild g w)) = fst (run_all w (go_plan g w)) /\
  outcome (GoBuild g w) = snd (run_all w (go_plan g w)).
Proof.
  rewrite GoBuild_spawned, GoBuild_eq. unfold go_plan, controller_part.
  destruct (buildApiserver g); destruct (buildController g); simpl;
    repeat match goal with
           | |- context [Run w ?c] => destruct (Run w c); simpl
           end; split; reflexivity.
Qed.

(** A run of the command, on either path, is the run of a list of commands
    up to the first failure. *)
Lemma RunBuildExecutables_runs (g : Globals) (w : World) :
  exists plan,
    spawned (trace (RunBuildExecutables g w)) = fst (run_all w plan) /\
    outcome (RunBuildExecutables g w) = snd (run_all w plan).
Proof.
  unfold RunBuildExecutables. destruct (Bazel g).
  - exists (bazel_plan g w). apply BazelBuild_runs.
  - exists (go_plan g w). apply GoBuild_runs.
Qed.

Lemma app_singleton_last {A : Type} (pre pre' : list A) (c c' : A) :
  pre ++ [c] = pre' ++ [c'] -> c = c'.
Proof.
  intros H. apply (f_equal (fun l => last l c)) in H.
  rewrite !last_last in H. exact H.
Qed.

(** X1. On either path every [c.Run()] is checked: the commands spawned
    before the last one all succeeded, the outcome is [Done] exactly when
    every spawned command succeeded, and it is [Fatal e] exactly when the
    last spawned command returned [e]. *)
Theorem X1_fail_fast (g : Globals) (w : World) :
  (forall c,
      In c (removelast (spawned (trace (RunBuildExecutables g w)))) ->
      Run w c = None) /\
  (outcome (RunBuildExecutables g w) = Done tt <->
   forall c, In c (spawned (trace (RunBuildExecutables g w))) ->
             Run w c = None) /\
  (forall e,
      outcome (RunBuildExecutables g w) = Fatal e <->
      exists pre c,
        spawned (trace (RunBuildExecutables g w)) = pre ++ [c] /\
        Run w c = Some e).
Proof.
  destruct (RunBuildExecutables_runs g w) as (plan & Hs & Ho).
  rewrite Hs, Ho. destruct (run_all_spec w plan) as [Hp Hspec].
  split; [exact Hp|]. destruct (snd (run_all w plan)) as [[]|e0].
  - destruct Hspec as [Hfst Hall]. rewrite Hfst. split.
    + split; [intros _; exact Hall | reflexivity].
    + intros e. split; [discriminate|].
      intros (pre & c & Hl & Hc).
      rewrite (Hall c) in Hc; [discriminate|].
      rewrite Hl. apply in_or_app. right. left. reflexivity.
  - destruct Hspec as (pre & c & Hl & Hc). rewrite Hl. split.
    + split; [discriminate|]. intros Hall.
      rewrite (Hall c) in Hc; [discriminate|].
      apply in_or_app. right. left. reflexivity.
    + intros e. split.
      * intros [= <-]. exists pre, c. auto.
      * intros (pre' & c' & Hl' & Hc').
        apply app_singleton_last in Hl'. subst c'. congruence.
Qed.

(** X2. When every command succeeds the command ends in [Done], and it has
    spawned exactly the commands the selection asks for, in a fixed order:
    on the direct path the apiserver's build and then the controller's; on
    the Bazel path the gazelle commands, the build, and the copies. *)
Theorem X2_success_runs_the_plan (g : Globals) (w : World) :
  (forall c, Run w c = None) ->
  outcome (RunBuildExecutables g w) = Done tt /\
  spawned (trace (RunBuildExecutables g w))
  = if Bazel g
    then (if Gazelle g
          then (if Stat w "go.mod" then [update_repos_cmd] else [])
               ++ [gazelle_cmd]
          else [])
         ++ [bazel_build_cmd g]
         ++ (if buildApiserver g then [cp_apiserver_cmd] else [])
         ++ (if buildController g then [cp_manager_cmd] else [])
    else (if buildApiserver g then [apiserver_cmd g w] else [])
         ++ (if buildController g then [controller_cmd g w] else []).
Proof.
  intros Hok. unfold RunBuildExecutables. destruct (Bazel g).
  - destruct (BazelBuild_runs g w) as [Hs Ho].
    rewrite Hs, Ho, run_all_ok by auto.
    split; [reflexivity|]. unfold bazel_plan, bazel_plan_build,
      bazel_plan_copy. simpl fst. rewrite <- app_assoc. reflexivity.
  - destruct (GoBuild_runs g w) as [Hs Ho].
    rewrite Hs, Ho, run_all_ok by auto. split; reflexivity.
Qed.

(** X2 on the cross-compiling configuration, every command succeeding. *)
Lemma X2_success_runs_the_plan_witness :
  outcome (RunBuildExecutables cross_globals world_ok) = Done tt /\
  spawned (trace (RunBuildExecutables cross_globals world_ok))
  = [apiserver_cmd cross_globals world_ok;
     controller_cmd cross_globals world_ok].
Proof.
  exact (X2_success_runs_the_plan cross_globals world_ok
           (fun _ => eq_refl)).
Defined.

(** ** What a run depends on *)

Lemma range_apiserver_false (ts : list string) :
  range_apiserver ts = false <-> ~ In apiserverTarget ts.
Proof.
  rewrite <- range_apiserver_In. destruct (range_apiserver ts).
  - split; [discriminate | intros H; elim H; reflexivity].
  - split; [discriminate | reflexivity].
Qed.

Lemma range_controller_false (ts : list string) :
  range_controller ts = false <-> ~ In controllerTarget ts.
Proof.
  rewrite <- range_controller_In. destruct (range_controller ts).
  - split; [discriminate | intros H; elim H; reflexivity].
  - split; [discriminate | reflexivity].
Qed.

(** The direct path reads the configuration through the three strings and
    the two selection tests only. *)
Lemma GoBuild_ext (g g' : Globals) (w : World) :
  goos g = goos g' -> goarch g = goarch g' -> outputdir g = outputdir g' ->
  buildApiserver g = buildApiserver g' ->
  buildController g = buildController g' ->
  GoBuild g w = GoBuild g' w.
Proof.
  intros Hos Harch Hout HA HC.
  unfold GoBuild, controller_cmd. rewrite Hos, Harch, Hout, HA, HC.
  reflexivity.
Qed.

(** The Bazel path reads it through the gazelle flag and the two selection
    tests only. *)
Lemma BazelBuild_ext (g g' : Globals) (w : World) :
  Gazelle g = Gazelle g' ->
  buildApiserver g = buildApiserver g' ->
  buildController g = buildController g' ->
  BazelBuild g w = BazelBuild g' w.
Proof.
  intros HG HA HC. unfold BazelBuild. rewrite HG, HA, HC. reflexivity.
Qed.

(** X3. When the target list names neither "apiserver" nor "controller"
    (an empty list, or only names the builder does not know), the direct
    path still removes the two stale binaries, spawns nothing and ends in
    [Done]; the Bazel path spawns no copy, and its build command is
    [bazel build] without a target. *)
Theorem X3_nothing_selected (g : Globals) (w : World) :
  ~ In "apiserver" (BuildTargets g) ->
  ~ In "controller" (BuildTargets g) ->
  GoBuild g w = (go_prelude, Done tt) /\
  Args (bazel_build_cmd g) = ["bazel"; "build"] /\
  spawned (trace (BazelBuild g w))
  = fst (run_all w (bazel_plan_build g w)) /\
  (forall c, In (ERun c) (trace (BazelBuild g w)) ->
             hd "" (Args c) = "bazel").
Proof.
  intros HA HC.
  apply range_apiserver_false in HA. apply range_controller_false in HC.
  fold (buildApiserver g) in HA. fold (buildController g) in HC.
  assert (Hplan : bazel_plan g w = bazel_plan_build g w).
  { unfold bazel_plan, bazel_plan_copy. rewrite HA, HC. apply app_nil_r. }
  split; [|split; [|split]].
  - rewrite GoBuild_eq. unfold controller_part. rewrite HA, HC.
    reflexivity.
  - unfold bazel_build_cmd. rewrite HA, HC. reflexivity.
  - rewrite (proj1 (BazelBuild_runs g w)), Hplan. reflexivity.
  - intros c H. apply BazelBuild_spawned_plan in H. rewrite Hplan in H.
    unfold bazel_plan_build in H. rewrite !in_app_iff in H.
    destruct (Gazelle g), (Stat w "go.mod"); simpl in H;
      repeat match type of H with
             | _ \/ _ => destruct H as [H|H]
             | False => destruct H
             end; subst c; reflexivity.
Qed.

(** X3 on a list of names the builder does not know. *)
Lemma X3_nothing_selected_witness :
  GoBuild (StringArrayVar_BuildTargets ["Apiserver"; "manager"]
             default_globals) world_fail
  = (go_prelude, Done tt).
Proof.
  refine (proj1 (X3_nothing_selected
                   (StringArrayVar_BuildTargets ["Apiserver"; "manager"]
                      default_globals) world_fail _ _)).
  - simpl. intros [H|[H|[]]]; discriminate.
  - simpl. intros [H|[H|[]]]; discriminate.
Defined.

(** X4. The whole run depends on the target list through its members only:
    two lists with the same members, in any order and with any repetitions,
    give the same events and the same outcome, so a target named twice is
    built once. *)
Theorem X4_run_depends_on_members
        (os arch out : string) (bz gz : bool) (ts ts' : list string)
        (w : World) :
  (forall t, In t ts <-> In t ts') ->
  RunBuildExecutables (mkGlobals os arch out bz gz ts) w
  = RunBuildExecutables (mkGlobals os arch out bz gz ts') w.
Proof.
  intros H.
  destruct (selection_same_members (mkGlobals os arch out bz gz ts)
              (mkGlobals os arch out bz gz ts') H) as [HA HC].
  unfold RunBuildExecutables. simpl Bazel. destruct bz.
  - apply BazelBuild_ext; [reflexivity | exact HA | exact HC].
  - apply GoBuild_ext; [reflexivity | reflexivity | reflexivity
                        | exact HA | exact HC].
Qed.

(** X4 on a list and the same targets reversed and repeated. *)
Lemma X4_run_depends_on_members_witness :
  RunBuildExecutables
    (mkGlobals "linux" "arm64" "out" false false ["apiserver"; "controller"])
    world_ok
  = RunBuildExecutables
      (mkGlobals "linux" "arm64" "out" false false
         ["controller"; "apiserver"; "controller"])
      world_ok.
Proof.
  apply X4_run_depends_on_members. intros t. simpl. tauto.
Defined.

(** X5. On the Bazel path the flags [--goos], [--goarch] and [--output]
    have no effect on the run, and no command is given an environment of
    its own: every command runs with the ambient environment as it is. *)
Theorem X5_bazel_ignores_toolchain_flags
        (os os' arch arch' out out' : string) (gz : bool)
        (ts : list string) (w : World) :
  RunBuildExecutables (mkGlobals os arch out true gz ts) w
  = RunBuildExecutables (mkGlobals os' arch' out' true gz ts) w /\
  (forall c,
      In (ERun c)
         (trace (RunBuildExecutables (mkGlobals os arch out true gz ts) w)) ->
      Env c = None /\ child_env w c = Environ w).
Proof.
  split.
  - unfold RunBuildExecutables. simpl Bazel. cbv iota.
    apply BazelBuild_ext; reflexivity.
  - intros c H. unfold RunBuildExecutables in H. simpl Bazel in H.
    cbv iota in H. apply BazelBuild_spawned_plan in H.
    assert (HE : Env c = None).
    { unfold bazel_plan, bazel_plan_build, bazel_plan_copy in H.
      rewrite !in_app_iff in H.
      repeat match type of H with
             | context [if ?b then _ else _] => destruct b
             end; simpl in H;
        repeat match type of H with
               | _ \/ _ => destruct H as [H|H]
               | False => destruct H
               end; subst c; reflexivity. }
    split; [exact HE|]. unfold child_env. rewrite HE. reflexivity.
Qed.

(** On the direct path the flag [--gazelle] and the presence of [go.mod]
    have no effect on the run. *)
Lemma GoBuild_ignores_gazelle
      (os arch out : string) (gz gz' : bool) (ts : list string)
      (env : list string) (st st' : string -> bool)
      (run : Cmd -> option error) :
  RunBuildExecutables (mkGlobals os arch out false gz ts)
    (mkWorld env st run)
  = RunBuildExecutables (mkGlobals os arch out false gz' ts)
      (mkWorld env st' run).
Proof. reflexivity. Qed.

(** X7. On the Bazel path the stale binaries are removed after the build
    and before the copies: the commands spawned before the first removal
    are the gazelle commands and the build, run up to the first failure;
    when one of them fails nothing is removed and nothing is copied; when
    they all succeed the two removals follow at once, and the commands
    after them are the copies, run up to the first failure. *)
Theorem X7_bazel_removal_after_build (g : Globals) (w : World) :
  spawned (until_removal (trace (BazelBuild g w)))
  = fst (run_all w (bazel_plan_build g w)) /\
  match snd (run_all w (bazel_plan_build g w)) with
  | Fatal e =>
      outcome (BazelBuild g w) = Fatal e /\
      from_removal (trace (BazelBuild g w)) = []
  | Done _ =>
      exists post,
        from_removal (trace (BazelBuild g w))
        = ERemoveAll "bin/apiserver" :: ERemoveAll "bin/controller-manager"
            :: post /\
        removed post = [] /\
        spawned post = fst (run_all w (bazel_plan_copy g)) /\
        outcome (BazelBuild g w) = snd (run_all w (bazel_plan_copy g))
  end.
Proof.
  bazel_run_cases g w;
    (split; [reflexivity|]);
    first [ split; reflexivity
          | eexists; split; [reflexivity|];
            split; [reflexivity|]; split; reflexivity ].
Qed.

(** ** Order of the events *)

(** X8. On either path, whatever the configuration and whatever the
    commands return, [initApis] is called exactly once, as the first event
    of the run. *)
Theorem X8_initApis_first_and_once (g : Globals) (w : World) :
  hd_error (trace (RunBuildExecutables g w)) = Some EInitApis /\
  count_initApis (trace (RunBuildExecutables g w)) = 1.
Proof.
  unfold RunBuildExecutables. destruct (Bazel g).
  - bazel_run_cases g w; split; reflexivity.
  - rewrite GoBuild_eq. unfold controller_part, apiserver_log.
    destruct (buildApiserver g); destruct (buildController g);
      destruct (strings.nonempty (goos g));
      destruct (strings.nonempty (goarch g));
      repeat match goal with
             | |- context [match Run w ?c with _ => _ end] =>
                 destruct (Run w c)
             end; split; reflexivity.
Qed.

(** X10. Every command the builder spawns, on either path, is announced by
    the event just before it: a log line that carries the command line, the
    arguments joined by spaces, either as the argument of the format [%s] or
    as the format itself. The controller's build of the direct path is
    logged the second way: its command line is the format of the log
    call. *)
Theorem X10_commands_are_logged (g : Globals) (w : World) :
  runs_logged None (trace (RunBuildExecutables g w)) /\
  (In (ERun (controller_cmd g w)) (trace (GoBuild g w)) ->
   In (EInfof (command_line (controller_cmd g w)) [])
      (trace (GoBuild g w))).
Proof.
  split.
  - unfold RunBuildExecutables. destruct (Bazel g).
    + bazel_run_cases g w; unfold command_line, strings.Join; cbn;
        intuition auto.
    + rewrite GoBuild_eq. unfold controller_part, apiserver_log.
      destruct (buildApiserver g); destruct (buildController g);
        destruct (strings.nonempty (goos g));
        destruct (strings.nonempty (goarch g));
        repeat match goal with
               | |- context [match Run w ?c with _ => _ end] =>
                   destruct (Run w c)
               end;
        cbn -[apiserver_cmd controller_cmd command_line strings.Join];
        unfold command_line; intuition auto.
  - intros H. apply spawned_In in H. rewrite GoBuild_spawned in H.
    rewrite GoBuild_eq. unfold controller_part, command_line.
    destruct (buildApiserver g);
      [destruct (Run w (apiserver_cmd g w)) as [e|]|];
      destruct (buildController g); simpl in H;
      repeat match type of H with
             | _ \/ _ => destruct H as [H|H]
             | False => destruct H
             | apiserver_cmd _ _ = controller_cmd _ _ =>
                 elim (apiserver_cmd_neq_controller_cmd _ _ _ _ H)
             end;
      rewrite trace_pair; rewrite ?in_app_iff; simpl; auto 7.
Qed.

(** ** More on the environments of the direct path *)

(** X11. When the ambient [CGO_ENABLED] is unset or empty, the controller's
    build is given the same environment as the apiserver's: the ambient
    entries, [CGO_ENABLED=0] and the entries of the flags. The assignment
    that forces [CGO_ENABLED=0] replaces whatever the statements before it
    appended, so the two extra entries gated on [%LocalAppData%] are not in
    it even when that variable is set. *)
Theorem X11_controller_env_without_cgo (g : Globals) (w : World) :
  Getenv w "CGO_ENABLED" = "" ->
  Env (controller_cmd g w) = Env (apiserver_cmd g w) /\
  Env (controller_cmd g w)
  = Some (Environ w ++ "CGO_ENABLED=0" :: cross_entries g).
Proof.
  intros H. apply nonempty_false in H.
  rewrite controller_Env, H. split; reflexivity.
Qed.

(** A world that sets the variable named [%LocalAppData%] and leaves
    [CGO_ENABLED] unset. *)
Lemma X11_controller_env_without_cgo_witness :
  Getenv (mkWorld ["GOCACHE=/cache"; "%LocalAppData%=/data"]
            (fun _ => false) (fun _ => None)) "%LocalAppData%" = "/data" /\
  Env (controller_cmd default_globals
         (mkWorld ["GOCACHE=/cache"; "%LocalAppData%=/data"]
            (fun _ => false) (fun _ => None)))
  = Some ["GOCACHE=/cache"; "%LocalAppData%=/data"; "CGO_ENABLED=0"].
Proof.
  split; [reflexivity|].
  exact (proj2 (X11_controller_env_without_cgo default_globals
                  (mkWorld ["GOCACHE=/cache"; "%LocalAppData%=/data"]
                     (fun _ => false) (fun _ => None)) eq_refl)).
Defined.

(** X12. When the ambient [CGO_ENABLED] has a non-empty value, the
    controller's build is given no ambient entry by the builder: its [Env]
    is [nil] when neither flag is set and the gate is closed, so the child
    inherits the ambient environment unchanged; in every other case its
    [Env] is the appended entries alone, and the child environment is
    exactly the two gated entries (gate open) followed by the entries of
    the flags. *)
Theorem X12_controller_env_with_cgo (g : Globals) (w : World) :
  Getenv w "CGO_ENABLED" <> "" ->
  (Getenv w "%LocalAppData%" = "" -> goos g = "" -> goarch g = "" ->
   Env (controller_cmd g w) = None /\
   child_env w (controller_cmd g w) = Environ w) /\
  (Getenv w "%LocalAppData%" = "" -> cross_entries g <> [] ->
   child_env w (controller_cmd g w) = cross_entries g) /\
  (Getenv w "%LocalAppData%" <> "" ->
   child_env w (controller_cmd g w)
   = ("GOCACHE=" ++ Getenv w "GOCACHE")%string
       :: ("LocalAppData=" ++ Getenv w "%LocalAppData%")%string
       :: cross_entries g).
Proof.
  intros H. apply nonempty_true in H.
  unfold child_env. rewrite controller_Env, H. split; [|split].
  - intros Hlad Hos Harch. apply nonempty_false in Hlad. rewrite Hlad.
    unfold cross_entries. apply nonempty_false in Hos, Harch.
    rewrite Hos, Harch. split; reflexivity.
  - intros Hlad Hne. apply nonempty_false in Hlad. rewrite Hlad.
    destruct (cross_entries g); [elim Hne; reflexivity | reflexivity].
  - intros Hlad. apply nonempty_true in Hlad. rewrite Hlad. reflexivity.
Qed.

(** X12 with [CGO_ENABLED=1] and no flag. *)
Lemma X12_controller_env_with_cgo_witness :
  child_env world_cgo (controller_cmd default_globals world_cgo)
  = ["PATH=/usr/bin"; "CGO_ENABLED=1"].
Proof.
  destruct (X12_controller_env_with_cgo default_globals world_cgo)
    as [Hnil _].
  - discriminate.
  - exact (proj2 (Hnil eq_refl eq_refl eq_refl)).
Defined.

Lemma lookup_last_tail_none (env tail : list string) (key : string) :
  (forall x, In x tail -> os.has_key key x = false) ->
  os.lookup_last (env ++ tail) key = os.lookup_last env key.
Proof.
  intros H. unfold os.lookup_last, os.lookup_first.
  rewrite rev_app_distr, find_none_app; [reflexivity|].
  intros x Hx. apply H, in_rev. exact Hx.
Qed.

(** The child environment of a command of the direct path ends with the
    entries of the flags, when there are any. *)
Lemma toolchain_child_env_suffix (g : Globals) (w : World) (c : Cmd) :
  toolchain_cmd g w c -> cross_entries g <> [] ->
  exists prefix, child_env w c = prefix ++ cross_entries g.
Proof.
  intros [-> | ->] Hne.
  - exists (Environ w ++ ["CGO_ENABLED=0"]).
    rewrite apiserver_child_env, <- app_assoc. reflexivity.
  - rewrite controller_child_env.
    destruct (strings.nonempty (Getenv w "CGO_ENABLED"));
      [destruct (strings.nonempty (Getenv w "%LocalAppData%"))|].
    + eexists [_; _]. reflexivity.
    + exists []. destruct (cross_entries g); [elim Hne|]; reflexivity.
    + exists (Environ w ++ ["CGO_ENABLED=0"]).
      rewrite <- app_assoc. reflexivity.
Qed.

(** A flag wins over the ambient environment: in the child environment
    of either build of the direct path, where the last entry of a key
    counts, [GOOS] has the value of [--goos] when the flag is not empty,
    and [GOARCH] the value of [--goarch]. With an empty flag the
    apiserver's build keeps the ambient value of the variable. *)
Lemma toolchain_flags_override (g : Globals) (w : World) (c : Cmd) :
  toolchain_cmd g w c ->
  (goos g <> "" ->
   os.lookup_last (child_env w c) "GOOS" = Some (goos g)) /\
  (goarch g <> "" ->
   os.lookup_last (child_env w c) "GOARCH" = Some (goarch g)) /\
  (goos g = "" ->
   os.lookup_last (child_env w (apiserver_cmd g w)) "GOOS"
   = os.lookup_last (Environ w) "GOOS") /\
  (goarch g = "" ->
   os.lookup_last (child_env w (apiserver_cmd g w)) "GOARCH"
   = os.lookup_last (Environ w) "GOARCH").
Proof.
  intros Hc. split; [|split; [|split]].
  - intros Hos.
    destruct (toolchain_child_env_suffix g w c Hc) as [prefix ->].
    { intros E. assert (Hin : In ("GOOS=" ++ goos g)%string (cross_entries g))
        by (apply cross_entries_In; auto).
      rewrite E in Hin. destruct Hin. }
    unfold cross_entries. apply nonempty_true in Hos. rewrite Hos.
    apply lookup_last_decided with (k := "GOOS");
      [reflexivity | reflexivity |].
    intros x Hx. destruct (strings.nonempty (goarch g));
      [destruct Hx as [<-|[]]; reflexivity | destruct Hx].
  - intros Harch.
    destruct (toolchain_child_env_suffix g w c Hc) as [prefix ->].
    { intros E.
      assert (Hin : In ("GOARCH=" ++ goarch g)%string (cross_entries g))
        by (apply cross_entries_In; auto).
      rewrite E in Hin. destruct Hin. }
    unfold cross_entries. apply nonempty_true in Harch. rewrite Harch.
    rewrite app_assoc.
    apply lookup_last_decided with (k := "GOARCH");
      [reflexivity | reflexivity | intros x []].
  - intros Hos. rewrite apiserver_child_env.
    apply lookup_last_tail_none. intros x [<-|Hx]; [reflexivity|].
    apply cross_entries_In in Hx.
    destruct Hx as [[Hne _]|[_ ->]]; [contradiction | reflexivity].
  - intros Harch. rewrite apiserver_child_env.
    apply lookup_last_tail_none. intros x [<-|Hx]; [reflexivity|].
    apply cross_entries_In in Hx.
    destruct Hx as [[_ ->]|[Hne _]]; [reflexivity | contradiction].
Qed.

(** ** Defaults *)

Lemma controller_Args (g : Globals) (w : World) :
  Args (controller_cmd g w)
  = ["go"; "build"; "-o"; filepath.Join [outputdir g; "controller-manager"];
     "cmd/manager/main.go"].
Proof.
  unfold controller_cmd.
  repeat match goal with
         | |- context [if ?b then _ else _] => destruct b
         end; reflexivity.
Qed.

(** X15. When [--output] is left at [bin], or names that directory with a
    trailing slash or a leading [./], the two paths the direct path removes
    are the two paths its builds write to. *)
Theorem X15_default_output_is_removed (g : Globals) (w : World) :
  In (outputdir g) ["bin"; "bin/"; "./bin"; "./bin/"] ->
  removed (trace (GoBuild g w))
  = [nth 3 (Args (apiserver_cmd g w)) "";
     nth 3 (Args (controller_cmd g w)) ""].
Proof.
  intros H. rewrite GoBuild_removed, controller_Args.
  unfold apiserver_cmd. simpl nth.
  simpl in H.
  repeat match type of H with
         | _ \/ _ => destruct H as [H|H]
         | False => destruct H
         end; rewrite <- H; reflexivity.
Qed.

(** X15 on the default configuration. *)
Lemma X15_default_output_is_removed_witness :
  removed (trace (GoBuild default_globals world_ok))
  = ["bin/apiserver"; "bin/controller-manager"].
Proof.
  exact (X15_default_output_is_removed default_globals world_ok
           (or_introl eq_refl)).
Defined.

(** ** Failure of the second build *)

(** X6. On the direct path, when the controller is selected, the apiserver's
    build (if it is selected) succeeds and the controller's build returns an
    error, the command ends in [Fatal] with that error after the apiserver's
    build has run: the commands spawned are the apiserver's (if selected)
    and the controller's, the failed command is the last event, and nothing
    is removed or undone after it. *)
Theorem X6_controller_failure_is_fatal (g : Globals) (w : World) (e : error) :
  buildController g = true ->
  (buildApiserver g = true -> Run w (apiserver_cmd g w) = None) ->
  Run w (controller_cmd g w) = Some e ->
  outcome (GoBuild g w) = Fatal e /\
  spawned (trace (GoBuild g w))
  = (if buildApiserver g then [apiserver_cmd g w] else [])
    ++ [controller_cmd g w] /\
  last (trace (GoBuild g w)) EInitApis = ERun (controller_cmd g w) /\
  removed (trace (GoBuild g w)) = removed go_prelude.
Proof.
  intros HC HA HR.
  split; [|split; [|split]].
  - rewrite GoBuild_eq. unfold controller_part. rewrite HC, HR.
    destruct (buildApiserver g); [rewrite HA by reflexivity|]; reflexivity.
  - rewrite GoBuild_spawned, HC.
    destruct (buildApiserver g); [rewrite HA by reflexivity|]; reflexivity.
  - rewrite GoBuild_eq. unfold controller_part. rewrite HC, HR.
    destruct (buildApiserver g); [rewrite HA by reflexivity|];
      rewrite !trace_pair.
    + change (go_prelude ++ apiserver_log g w ++ [ERun (apiserver_cmd g w)]
                ++ [EInfof (strings.Join (Args (controller_cmd g w)) " ") [];
                    ERun (controller_cmd g w)])
        with (go_prelude ++ apiserver_log g w ++ [ERun (apiserver_cmd g w)]
                ++ [EInfof (strings.Join (Args (controller_cmd g w)) " ") []]
                ++ [ERun (controller_cmd g w)]).
      rewrite !app_assoc. apply last_last.
    + reflexivity.
  - rewrite GoBuild_removed. reflexivity.
Qed.

(** X6 with both targets selected and only the controller's build
    failing. *)
Lemma X6_controller_failure_is_fatal_witness :
  outcome (GoBuild default_globals world_controller_fails)
  = Fatal (ExitError 2) /\
  spawned (trace (GoBuild default_globals world_controller_fails))
  = [apiserver_cmd default_globals world_controller_fails;
     controller_cmd default_globals world_controller_fails].
Proof.
  destruct (X6_controller_failure_is_fatal default_globals
              world_controller_fails (ExitError 2)
              eq_refl (fun _ => eq_refl) eq_refl) as (Ho & Hs & _).
  split; [exact Ho | exact Hs].
Defined.

(** * The builds of a run and their environments *)

Lemma apiserver_cmd_is_build (g : Globals) (w : World) :
  is_apiserver_build g (apiserver_cmd g w).
Proof. reflexivity. Qed.

Lemma controller_cmd_is_build (g : Globals) (w : World) :
  is_controller_build g (controller_cmd g w).
Proof. apply controller_Args. Qed.

Lemma build_kinds_disjoint (g : Globals) (c : Cmd) :
  is_apiserver_build g c -> is_controller_build g c -> False.
Proof.
  unfold is_apiserver_build, is_controller_build. intros Ha Hc.
  rewrite Ha in Hc. discriminate Hc.
Qed.

(** A command of a run of the direct path that has the arguments of the
    apiserver's build is the command the first block built, and one that has
    the arguments of the controller's build is the command of the second. *)
Lemma spawned_apiserver_build (g : Globals) (w : World) (c : Cmd) :
  In (ERun c) (trace (GoBuild g w)) -> is_apiserver_build g c ->
  c = apiserver_cmd g w.
Proof.
  intros H Hb. destruct (GoBuild_spawned_toolchain g w c H) as [E|E];
    [exact E|]. subst c.
  elim (build_kinds_disjoint g _ Hb (controller_cmd_is_build g w)).
Qed.

Lemma spawned_controller_build (g : Globals) (w : World) (c : Cmd) :
  In (ERun c) (trace (GoBuild g w)) -> is_controller_build g c ->
  c = controller_cmd g w.
Proof.
  intros H Hb. destruct (GoBuild_spawned_toolchain g w c H) as [E|E];
    [|exact E]. subst c.
  elim (build_kinds_disjoint g _ (apiserver_cmd_is_build g w) Hb).
Qed.

Lemma spawned_is_build (g : Globals) (w : World) (c : Cmd) :
  In (ERun c) (trace (GoBuild g w)) ->
  is_apiserver_build g c \/ is_controller_build g c.
Proof.
  intros H. destruct (GoBuild_spawned_toolchain g w c H) as [-> | ->].
  - left. apply apiserver_cmd_is_build.
  - right. apply controller_cmd_is_build.
Qed.

(** A selected apiserver is built, first of all commands. *)
Lemma GoBuild_spawns_apiserver (g : Globals) (w : World) :
  buildApiserver g = true ->
  exists c, hd_error (spawned (trace (GoBuild g w))) = Some c /\
            In (ERun c) (trace (GoBuild g w)) /\
            is_apiserver_build g c.
Proof.
  intros HA. exists (apiserver_cmd g w).
  assert (Hhd : hd_error (spawned (trace (GoBuild g w)))
                = Some (apiserver_cmd g w)).
  { rewrite GoBuild_spawned, HA. reflexivity. }
  split; [exact Hhd|]. split; [|apply apiserver_cmd_is_build].
  apply spawned_In. destruct (spawned (trace (GoBuild g w))) as [|c0 l];
    [discriminate Hhd|]. injection Hhd as ->. left. reflexivity.
Qed.

(** A selected controller is built, unless the apiserver's build ran and
    failed. *)
Lemma GoBuild_spawns_controller (g : Globals) (w : World) :
  buildController g = true ->
  (forall c, In (ERun c) (trace (GoBuild g w)) ->
             is_apiserver_build g c -> Run w c = None) ->
  exists c, In (ERun c) (trace (GoBuild g w)) /\ is_controller_build g c.
Proof.
  intros HC Hok. exists (controller_cmd g w).
  split; [|apply controller_cmd_is_build].
  apply spawned_In.
  destruct (buildApiserver g) eqn:HA.
  - destruct (GoBuild_spawns_apiserver g w HA) as (c & _ & Hin & Hb).
    pose proof (Hok c Hin Hb) as Hrun.
    rewrite (spawned_apiserver_build g w c Hin Hb) in Hrun.
    rewrite GoBuild_spawned, HA, Hrun, HC. right. left. reflexivity.
  - rewrite GoBuild_spawned, HA, HC. left. reflexivity.
Qed.

(** C5. On the direct path a selected apiserver is built, as the first
    command of the run, and a selected controller is built unless the
    apiserver's build ran and failed. Every command the run spawns is one
    of these two builds, and in its child environment: the entry
    [GOOS=<goos>] is present when the flag is not empty; every entry with
    the key [GOOS] is an ambient entry or that entry, so an empty flag adds
    nothing with that key; the same holds for [GOARCH]; with both flags
    empty the entries with these keys are ambient ones; and with [linux]
    and [arm64] the child environment contains [GOOS=linux] and
    [GOARCH=arm64]. *)
Theorem C5_cross_compile_entries (g : Globals) (w : World) :
  (buildApiserver g = true ->
   exists c, hd_error (spawned (trace (GoBuild g w))) = Some c /\
             In (ERun c) (trace (GoBuild g w)) /\
             is_apiserver_build g c) /\
  (buildController g = true ->
   (forall c, In (ERun c) (trace (GoBuild g w)) ->
              is_apiserver_build g c -> Run w c = None) ->
   exists c, In (ERun c) (trace (GoBuild g w)) /\ is_controller_build g c) /\
  (forall c, In (ERun c) (trace (GoBuild g w)) ->
     (is_apiserver_build g c \/ is_controller_build g c) /\
     (goos g <> "" -> In ("GOOS=" ++ goos g)%string (child_env w c)) /\
     (goarch g <> "" -> In ("GOARCH=" ++ goarch g)%string (child_env w c)) /\
     (forall e, In e (child_env w c) -> os.entry_key e = "GOOS" ->
                In e (Environ w) \/
                (goos g <> "" /\ e = ("GOOS=" ++ goos g)%string)) /\
     (forall e, In e (child_env w c) -> os.entry_key e = "GOARCH" ->
                In e (Environ w) \/
                (goarch g <> "" /\ e = ("GOARCH=" ++ goarch g)%string)) /\
     (goos g = "" -> goarch g = "" ->
      forall e, In e (child_env w c) ->
                os.entry_key e = "GOOS" \/ os.entry_key e = "GOARCH" ->
                In e (Environ w)) /\
     (goos g = "linux" -> goarch g = "arm64" ->
      In "GOOS=linux" (child_env w c) /\
      In "GOARCH=arm64" (child_env w c))).
Proof.
  split; [apply GoBuild_spawns_apiserver|].
  split; [apply GoBuild_spawns_controller|].
  intros c Hc. split; [exact (spawned_is_build g w c Hc)|].
  apply (proj2 (toolchain_cross_compile_entries g w)).
  apply GoBuild_spawned_toolchain. exact Hc.
Qed.

(** C5 on a run with [--goos linux --goarch arm64]: the controller's build
    is spawned and its child environment holds the two entries. *)
Lemma C5_cross_compile_entries_witness :
  exists c,
    In (ERun c) (trace (GoBuild cross_globals world_ok)) /\
    is_controller_build cross_globals c /\
    In "GOOS=linux" (child_env world_ok c) /\
    In "GOARCH=arm64" (child_env world_ok c).
Proof.
  destruct (C5_cross_compile_entries cross_globals world_ok)
    as (_ & Hctl & Hall).
  destruct (Hctl eq_refl (fun _ _ _ => eq_refl)) as (c & Hin & Hb).
  exists c. split; [exact Hin|]. split; [exact Hb|].
  destruct (Hall c Hin) as (_ & _ & _ & _ & _ & _ & Hla).
  exact (Hla eq_refl eq_refl).
Defined.

(** C6. On the direct path a selected apiserver is built, and the child
    environment of its build in the run contains [CGO_ENABLED=0] and gives
    the variable the value 0 (the last entry of a key counts), whatever the
    ambient environment says. A selected controller is built unless the
    apiserver's build ran and failed; its build in the run is the command of
    the second block, and: when the ambient [CGO_ENABLED] is unset or empty
    the entry is added and decides the value; when it is set to a non-empty
    value, the environment the command is given has no entry with that key,
    and the entries with that key in the child environment are ambient
    ones. *)
Theorem C6_cgo_enabled (g : Globals) (w : World) :
  (buildApiserver g = true ->
   exists c, hd_error (spawned (trace (GoBuild g w))) = Some c /\
             In (ERun c) (trace (GoBuild g w)) /\
             is_apiserver_build g c) /\
  (forall c, In (ERun c) (trace (GoBuild g w)) -> is_apiserver_build g c ->
     In "CGO_ENABLED=0" (child_env w c) /\
     os.lookup_last (child_env w c) "CGO_ENABLED" = Some "0") /\
  (buildController g = true ->
   (forall c, In (ERun c) (trace (GoBuild g w)) ->
              is_apiserver_build g c -> Run w c = None) ->
   exists c, In (ERun c) (trace (GoBuild g w)) /\ is_controller_build g c) /\
  (forall c, In (ERun c) (trace (GoBuild g w)) -> is_controller_build g c ->
     c = controller_cmd g w /\
     (Getenv w "CGO_ENABLED" = "" ->
      In "CGO_ENABLED=0" (child_env w c) /\
      os.lookup_last (child_env w c) "CGO_ENABLED" = Some "0") /\
     (Getenv w "CGO_ENABLED" <> "" ->
      (forall l, Env c = Some l ->
                 forall e, In e l -> os.entry_key e <> "CGO_ENABLED") /\
      (forall e, In e (child_env w c) ->
                 os.entry_key e = "CGO_ENABLED" -> In e (Environ w)))).
Proof.
  destruct (toolchain_cgo_enabled g w) as (Hapi & Hunset & Hset).
  split; [apply GoBuild_spawns_apiserver|]. split.
  { intros c Hc Hb. rewrite (spawned_apiserver_build g w c Hc Hb).
    exact Hapi. }
  split; [apply GoBuild_spawns_controller|].
  intros c Hc Hb. rewrite (spawned_controller_build g w c Hc Hb).
  split; [reflexivity|]. split; [exact Hunset | exact Hset].
Qed.

(** C6 on a run with [CGO_ENABLED=1] in the ambient environment: the
    apiserver's build is spawned with the value 0. *)
Lemma C6_cgo_enabled_witness :
  Getenv world_cgo "CGO_ENABLED" = "1" /\
  exists c,
    In (ERun c) (trace (GoBuild cross_globals world_cgo)) /\
    is_apiserver_build cross_globals c /\
    os.lookup_last (child_env world_cgo c) "CGO_ENABLED" = Some "0".
Proof.
  split; [reflexivity|].
  destruct (C6_cgo_enabled cross_globals world_cgo) as (Hex & Hall & _).
  destruct (Hex eq_refl) as (c & _ & Hin & Hb).
  exists c. split; [exact Hin|]. split; [exact Hb|].
  exact (proj2 (Hall c Hin Hb)).
Defined.

(** ** Removal before the builds *)

(** X9. On the direct path the run starts with [initApis] and the removal
    of [bin/apiserver] and [bin/controller-manager], whatever is selected;
    nothing is removed after that and every command is spawned after it. So
    at any command of the run, these two paths have already been removed
    and nothing is removed later, whether the command succeeds or fails. *)
Theorem X9_direct_removal_first (g : Globals) (w : World) :
  firstn 3 (trace (GoBuild g w))
  = [EInitApis; ERemoveAll "bin/apiserver";
     ERemoveAll "bin/controller-manager"] /\
  removed (skipn 3 (trace (GoBuild g w))) = [] /\
  spawned (skipn 3 (trace (GoBuild g w)))
  = spawned (trace (GoBuild g w)) /\
  (forall pre c post,
      trace (GoBuild g w) = pre ++ ERun c :: post ->
      removed pre = ["bin/apiserver"; "bin/controller-manager"] /\
      removed post = []).
Proof.
  assert (H3 : firstn 3 (trace (GoBuild g w))
               = [EInitApis; ERemoveAll "bin/apiserver";
                  ERemoveAll "bin/controller-manager"] /\
               removed (skipn 3 (trace (GoBuild g w))) = [] /\
               spawned (skipn 3 (trace (GoBuild g w)))
               = spawned (trace (GoBuild g w))).
  { rewrite GoBuild_eq. unfold controller_part, apiserver_log.
    destruct (buildApiserver g); destruct (buildController g);
      destruct (strings.nonempty (goos g));
      destruct (strings.nonempty (goarch g));
      repeat match goal with
             | |- context [match Run w ?c with _ => _ end] =>
                 destruct (Run w c)
             end; repeat split. }
  destruct H3 as (Hfirst & Hrest & Hsp).
  split; [exact Hfirst|]. split; [exact Hrest|]. split; [exact Hsp|].
  intros pre c post Ht.
  pose proof (firstn_skipn 3 (trace (GoBuild g w))) as Hsplit.
  rewrite Hfirst, Ht in Hsplit.
  set (rest := skipn 3 (pre ++ ERun c :: post)) in Hsplit.
  assert (Hr : removed rest = []) by (unfold rest; rewrite <- Ht; exact Hrest).
  clearbody rest.
  destruct pre as [|a [|b [|d pre']]]; simpl in Hsplit;
    try discriminate Hsplit.
  injection Hsplit as <- <- <- ->.
  rewrite removed_app in Hr. simpl in Hr.
  apply app_eq_nil in Hr. destruct Hr as [Hpre Hpost].
  simpl. rewrite Hpre. split; [reflexivity | exact Hpost].
Qed.

(** ** Flags against the ambient environment *)

(** X13. A flag wins over the ambient environment. On the direct path a
    selected apiserver is built and a selected controller is built unless
    the apiserver's build ran and failed; in the child environment of every
    command the run spawns, where the last entry of a key counts, [GOOS]
    has the value of [--goos] when the flag is not empty, and [GOARCH] the
    value of [--goarch]. With an empty flag the apiserver's build of the run
    keeps the ambient value of the variable. *)
Theorem X13_flags_override_ambient (g : Globals) (w : World) :
  (buildApiserver g = true ->
   exists c, hd_error (spawned (trace (GoBuild g w))) = Some c /\
             In (ERun c) (trace (GoBuild g w)) /\
             is_apiserver_build g c) /\
  (buildController g = true ->
   (forall c, In (ERun c) (trace (GoBuild g w)) ->
              is_apiserver_build g c -> Run w c = None) ->
   exists c, In (ERun c) (trace (GoBuild g w)) /\ is_controller_build g c) /\
  (forall c, In (ERun c) (trace (GoBuild g w)) ->
     (goos g <> "" ->
      os.lookup_last (child_env w c) "GOOS" = Some (goos g)) /\
     (goarch g <> "" ->
      os.lookup_last (child_env w c) "GOARCH" = Some (goarch g))) /\
  (forall c, In (ERun c) (trace (GoBuild g w)) -> is_apiserver_build g c ->
     (goos g = "" ->
      os.lookup_last (child_env w c) "GOOS"
      = os.lookup_last (Environ w) "GOOS") /\
     (goarch g = "" ->
      os.lookup_last (child_env w c) "GOARCH"
      = os.lookup_last (Environ w) "GOARCH")).
Proof.
  split; [apply GoBuild_spawns_apiserver|].
  split; [apply GoBuild_spawns_controller|]. split.
  - intros c Hc.
    destruct (toolchain_flags_override g w c
                (GoBuild_spawned_toolchain g w c Hc)) as (Hos & Harch & _).
    split; [exact Hos | exact Harch].
  - intros c Hc Hb. rewrite (spawned_apiserver_build g w c Hc Hb).
    destruct (toolchain_flags_override g w (apiserver_cmd g w)
                (or_introl eq_refl)) as (_ & _ & Hos & Harch).
    split; [exact Hos | exact Harch].
Qed.

(** X13 with an ambient [GOOS=darwin] and the flag [--goos linux]: the
    controller's build is spawned and its child has [GOOS] at [linux]. *)
Lemma X13_flags_override_ambient_witness :
  exists c,
    In (ERun c)
       (trace (GoBuild cross_globals
                 (mkWorld ["GOOS=darwin"; "CGO_ENABLED=1"]
                    (fun _ => false) (fun _ => None)))) /\
    is_controller_build cross_globals c /\
    os.lookup_last
      (child_env (mkWorld ["GOOS=darwin"; "CGO_ENABLED=1"]
                    (fun _ => false) (fun _ => None)) c) "GOOS"
    = Some "linux".
Proof.
  destruct (X13_flags_override_ambient cross_globals
              (mkWorld ["GOOS=darwin"; "CGO_ENABLED=1"]
                 (fun _ => false) (fun _ => None)))
    as (_ & Hctl & Hall & _).
  destruct (Hctl eq_refl (fun _ _ _ => eq_refl)) as (c & Hin & Hb).
  exists c. split; [exact Hin|]. split; [exact Hb|].
  apply (proj1 (Hall c Hin)). discriminate.
Defined.

(** ** A run without flags *)

(** X14. Declaring the flags stores their defaults in the variables,
    whatever they held before (the declarations initialise [goos] and
    [goarch] to "linux" and "amd64"). So a run without any flag takes the
    direct path; its first command is the apiserver's build into
    [bin/apiserver], with the ambient environment and [CGO_ENABLED=0] and
    nothing else; when the commands succeed it spawns the two builds, of
    [bin/apiserver] and of [bin/controller-manager]; and every entry with
    the key [GOOS] or [GOARCH] in the child environment of a command of the
    run is an ambient one. *)
Theorem X14_flag_defaults (g0 : Globals) (w : World) :
  RunBuildExecutables (AddBuildExecutables g0) w
  = GoBuild (AddBuildExecutables g0) w /\
  (exists c,
      hd_error (spawned (trace (RunBuildExecutables
                                  (AddBuildExecutables g0) w))) = Some c /\
      Args c = ["go"; "build"; "-o"; "bin/apiserver";
                "cmd/apiserver/main.go"] /\
      Env c = Some (Environ w ++ ["CGO_ENABLED=0"])) /\
  ((forall c, Run w c = None) ->
   outcome (RunBuildExecutables (AddBuildExecutables g0) w) = Done tt /\
   map Args (spawned (trace (RunBuildExecutables
                               (AddBuildExecutables g0) w)))
   = [["go"; "build"; "-o"; "bin/apiserver"; "cmd/apiserver/main.go"];
      ["go"; "build"; "-o"; "bin/controller-manager";
       "cmd/manager/main.go"]]) /\
  (forall c e,
      In (ERun c) (trace (RunBuildExecutables (AddBuildExecutables g0) w)) ->
      In e (child_env w c) ->
      os.entry_key e = "GOOS" \/ os.entry_key e = "GOARCH" ->
      In e (Environ w)).
Proof.
  change (RunBuildExecutables (AddBuildExecutables g0) w)
    with (GoBuild (AddBuildExecutables g0) w).
  split; [reflexivity|]. split; [|split].
  - exists (apiserver_cmd (AddBuildExecutables g0) w).
    rewrite GoBuild_spawned. repeat split.
  - intros Hok. destruct (GoBuild_runs (AddBuildExecutables g0) w) as [Hs Ho].
    rewrite Hs, Ho, run_all_ok by auto. split; [reflexivity|].
    unfold go_plan. simpl. rewrite controller_Args. reflexivity.
  - intros c e Hc He Hk.
    destruct (GoBuild_spawned_toolchain _ _ _ Hc) as [-> | ->].
    + apply apiserver_child_env_In in He.
      destruct He as [He|[->|[]]]; [exact He|].
      destruct Hk as [Hk|Hk]; discriminate Hk.
    + apply controller_child_env_In in He.
      destruct He as [He|[[_ ->]|[[_ [-> | ->]]|[]]]]; [exact He| | |];
        destruct Hk as [Hk|Hk]; discriminate Hk.
Qed.
